(** * GoogleV3: the Google Maps v3 geocoder of geopy

    A shallow embedding of [geopy/geocoders/googlev3.py] (Python 2) and the
    properties its specification states about it.

    Python values are an inductive type [pyval]; a call that may raise
    returns a [result]; methods that touch the instance or the transport
    run in a state monad [M] over the instance and the outside world.
    The collaborators the module imports ([urllib.urlencode], [base64],
    [hmac], [json.loads], [decode_page], the transport and the base class
    [Geocoder]) are the fields of the class [Collaborators]; the module
    [Std] gives executable models of the pure ones and [Stub] an instance
    with a canned transport. *)

From Stdlib Require Import ZArith Ascii String List Lia.
From Stdlib Require Import Floats.PrimFloat.
From stdpp Require Import base option list gmap strings fin_maps pretty.

Set Warnings "-register-all,-abstract-large-number,-inexact-float".

(** ** Exceptions and results *)

(** The exception classes the module raises itself or meets in the
    built-ins it calls.  [GQueryError] and [GTooManyQueriesError] both
    derive from [GeocoderResultError] (lines 231-237 of the source). *)
Inductive exn : Type :=
| TypeError
| ValueError
| KeyError
| IndexError
| AttributeError
| NotImplementedError
| IOError
| UnicodeError
| GeocoderResultError
| GQueryError
| GTooManyQueriesError.

#[global] Instance exn_eq_dec : EqDecision exn.
Proof. solve_decision. Defined.

(** [issubclass e c]: the [except c] clause catches [e]. *)
Definition issubclass (e c : exn) : bool :=
  match e, c with
  | GQueryError, GeocoderResultError => true
  | GTooManyQueriesError, GeocoderResultError => true
  | _, _ => bool_decide (e = c)
  end.

Inductive result (A : Type) : Type :=
| Ok (a : A)
| Raise (e : exn).
Arguments Ok {A} a.
Arguments Raise {A} e.

#[global] Instance result_ret : MRet result := fun _ a => Ok a.
#[global] Instance result_bind : MBind result := fun _ _ f m =>
  match m with
  | Ok a => f a
  | Raise e => Raise e
  end.
#[global] Instance result_fmap : FMap result := fun _ _ f m =>
  match m with
  | Ok a => Ok (f a)
  | Raise e => Raise e
  end.

Definition raises {A} (m : result A) : Prop := ∃ e, m = Raise e.

(** Left-to-right traversal: the first element that raises decides. *)
Fixpoint mapM_result {A B} (f : A → result B) (l : list A) : result (list B) :=
  match l with
  | [] => Ok []
  | x :: l' => y ← f x; ys ← mapM_result f l'; Ok (y :: ys)
  end.

(** ** Python values *)

(** The values that reach the module: what [json.loads] builds (dict,
    list, text, int, float, bool, None) and the tuples callers pass.
    Python 2 [str] and [unicode] are both [VStr]: they compare equal on
    equal ASCII text, which is all the module compares. *)
Inductive pyval : Type :=
| VNone
| VBool (b : bool)
| VInt (z : Z)
| VFloat (f : PrimFloat.float)
| VStr (s : string)
| VList (l : list pyval)
| VTuple (l : list pyval)
| VDict (d : gmap string pyval).

(** [geopy.point.Point]: an object with coordinate attributes. *)
Record Point : Type := mkPoint {
  latitude : pyval;
  longitude : pyval;
  altitude : pyval
}.

(** An argument that may be a [Point] instance or a plain value. *)
Inductive pyobj : Type :=
| ObjPoint (p : Point)
| ObjValue (v : pyval).

(** Truth value testing ([if x:], [not x], [x and y]). *)
Definition truthy (v : pyval) : bool :=
  match v with
  | VNone => false
  | VBool b => b
  | VInt z => negb (z =? 0)%Z
  | VFloat f => negb (PrimFloat.eqb f 0%float)
  | VStr s => negb (String.eqb s "")
  | VList l | VTuple l => negb (Nat.eqb (length l) 0)
  | VDict d => negb (Nat.eqb (size d) 0)
  end.

(** Truth value of an optional string argument ([None] or a [str]). *)
Definition truthy_opt (o : option string) : bool :=
  match o with
  | None => false
  | Some s => negb (String.eqb s "")
  end.

Definition of_opt (o : option string) : pyval :=
  match o with
  | None => VNone
  | Some s => VStr s
  end.

(** [v == 'literal'] for a string literal. *)
Definition eq_str (v : pyval) (lit : string) : bool :=
  match v with
  | VStr s => String.eqb s lit
  | _ => false
  end.

(** A list or a dict is unhashable, and so is a tuple that holds one. *)
Fixpoint hashable (v : pyval) : bool :=
  match v with
  | VList _ | VDict _ => false
  | VTuple l => forallb hashable l
  | _ => true
  end.

(** Sequence indexing [l[i]] with Python's negative indices. *)
Definition seq_index {A} (l : list A) (i : Z) : result A :=
  let n := Z.of_nat (length l) in
  let j := if (i <? 0)%Z then (i + n)%Z else i in
  if (j <? 0)%Z then Raise IndexError
  else match l !! Z.to_nat j with
       | Some x => Ok x
       | None => Raise IndexError
       end.

Definition chars (s : string) : list pyval :=
  (λ c, VStr (String c "")) <$> String.list_ascii_of_string s.

(** Subscription [v[k]]. *)
Definition getitem (v k : pyval) : result pyval :=
  match v with
  | VDict d =>
      match k with
      | VStr key => match d !! key with
                    | Some x => Ok x
                    | None => Raise KeyError
                    end
      | _ => if hashable k then Raise KeyError else Raise TypeError
      end
  | VList l | VTuple l =>
      match k with
      | VInt i => seq_index l i
      | VBool b => seq_index l (if b then 1 else 0)%Z
      | _ => Raise TypeError
      end
  | VStr s =>
      match k with
      | VInt i => seq_index (chars s) i
      | VBool b => seq_index (chars s) (if b then 1 else 0)%Z
      | _ => Raise TypeError
      end
  | VNone | VBool _ | VInt _ | VFloat _ => Raise TypeError
  end.

(** The method call [v.get(key, fallback)]: only a dict has it. *)
Definition get (v : pyval) (key : string) (fallback : pyval) : result pyval :=
  match v with
  | VDict d => Ok (default fallback (d !! key))
  | _ => Raise AttributeError
  end.

(** Iteration ([for x in v], or an iterable argument). *)
Definition iter (v : pyval) : result (list pyval) :=
  match v with
  | VList l | VTuple l => Ok l
  | VStr s => Ok (chars s)
  | VDict d => Ok (VStr <$> (map_to_list d).*1)
  | VNone | VBool _ | VInt _ | VFloat _ => Raise TypeError
  end.

(** ** String methods *)

Definition as_str (v : pyval) : result string :=
  match v with
  | VStr s => Ok s
  | _ => Raise TypeError
  end.

(** The method call [sep.join] applied to the arguments [args].
    [str.join] takes exactly one argument, an iterable of strings; any
    other number of arguments is a [TypeError] before anything is
    joined. *)
Definition join (sep : string) (args : list pyval) : result pyval :=
  match args with
  | [iterable] =>
      items ← iter iterable;
      strs ← mapM_result as_str items;
      Ok (VStr (String.concat sep strs))
  | _ => Raise TypeError
  end.

(** [s.strip(c)] for a single character [c]. *)
Fixpoint lstrip (c : ascii) (s : string) : string :=
  match s with
  | EmptyString => EmptyString
  | String a s' => if Ascii.eqb a c then lstrip c s' else s
  end.

Fixpoint rstrip (c : ascii) (s : string) : string :=
  match s with
  | EmptyString => EmptyString
  | String a s' =>
      match rstrip c s' with
      | EmptyString => if Ascii.eqb a c then EmptyString else String a EmptyString
      | r => String a r
      end
  end.

Definition strip (c : ascii) (s : string) : string := rstrip c (lstrip c s).

(** [s.lower()] on ASCII text. *)
Definition lower_ascii (c : ascii) : ascii :=
  let n := nat_of_ascii c in
  if (65 <=? n) && (n <=? 90) then ascii_of_nat (n + 32) else c.

Fixpoint lower (s : string) : string :=
  match s with
  | EmptyString => EmptyString
  | String a s' => String (lower_ascii a) (lower s')
  end.

(** [str(b)] for a bool. *)
Definition str_bool (b : bool) : string := if b then "True" else "False".

(** *** The formatting operator [fmt % mapping]

    Only the conversion the module uses, [%(key)s] on string values, and
    the escape [%%] are interpreted; a missing key is a [KeyError], and
    any other conversion is rejected with [ValueError]. *)
Inductive fmt_state : Type :=
| Lit
| Percent
| InKey (key : string)
| Conv (key : string).

Fixpoint format_from (st : fmt_state) (fmt : string) (args : gmap string string)
    : result string :=
  match fmt with
  | EmptyString =>
      match st with
      | Lit => Ok EmptyString
      | _ => Raise ValueError
      end
  | String c rest =>
      match st with
      | Lit =>
          if Ascii.eqb c "%" then format_from Percent rest args
          else String c <$> format_from Lit rest args
      | Percent =>
          if Ascii.eqb c "(" then format_from (InKey "") rest args
          else if Ascii.eqb c "%" then String c <$> format_from Lit rest args
          else Raise ValueError
      | InKey key =>
          if Ascii.eqb c ")" then format_from (Conv key) rest args
          else format_from (InKey (key +:+ String c "")) rest args
      | Conv key =>
          if Ascii.eqb c "s" then
            match args !! key with
            | Some v => String.append v <$> format_from Lit rest args
            | None => Raise KeyError
            end
          else Raise ValueError
      end
  end.

Definition format (fmt : string) (args : gmap string string) : result string :=
  format_from Lit fmt args.

(** ** Reference models of the standard library

    The class is stated over its collaborators (section [Collaborators]
    below).  This module gives executable models of the ones that are
    pure functions, used to run the class on concrete requests:
    SHA-1 (FIPS 180-4), HMAC (RFC 2104), URL-safe base64 (RFC 4648) and
    [urllib.urlencode] with [quote_plus]. *)
Module Std.
Local Open Scope Z_scope.

(** Bytes of a Python 2 [str], as numbers below 256. *)
Definition byte_of (c : ascii) : Z := Z.of_N (N_of_ascii c).
Definition char_of (b : Z) : ascii := ascii_of_N (Z.to_N (b mod 256)).
Definition bytes_of (s : string) : list Z := byte_of <$> String.list_ascii_of_string s.
Definition string_of (bs : list Z) : string :=
  String.string_of_list_ascii (char_of <$> bs).

(** *** SHA-1 on 32-bit words *)
Definition word (x : Z) : Z := Z.land x 0xFFFFFFFF.
Definition rotl (n x : Z) : Z := word (Z.lor (Z.shiftl x n) (Z.shiftr x (32 - n))).

(** The [n] low bytes of [x], most significant first. *)
Fixpoint be_bytes (n : nat) (x : Z) : list Z :=
  match n with
  | O => []
  | S n' => Z.land (Z.shiftr x (8 * Z.of_nat n')) 255 :: be_bytes n' x
  end.

Definition be_word (bs : list Z) : Z := fold_left (λ acc b, acc * 256 + b) bs 0.

(** Padding: a one bit, zeros up to 56 modulo 64, the bit length. *)
Definition pad (msg : list Z) : list Z :=
  let len := length msg in
  let zeros := ((55 + 64 - len mod 64) mod 64)%nat in
  msg ++ [128] ++ repeat 0 zeros ++ be_bytes 8 (8 * Z.of_nat len).

Fixpoint chunks (count size : nat) (bs : list Z) : list (list Z) :=
  match count with
  | O => []
  | S count' => take size bs :: chunks count' size (drop size bs)
  end.

(** The message schedule, newest word first. *)
Fixpoint schedule (n : nat) (w : list Z) : list Z :=
  match n with
  | O => w
  | S n' =>
      let x := Z.lxor (Z.lxor (nth 2 w 0) (nth 7 w 0)) (Z.lxor (nth 13 w 0) (nth 15 w 0)) in
      schedule n' (rotl 1 x :: w)
  end.

Definition round (st : Z * Z * Z * Z * Z) (tw : nat * Z) : Z * Z * Z * Z * Z :=
  let '(a, b, c, d, e) := st in
  let '(t, w) := tw in
  let '(f, k) :=
    if (t <? 20)%nat then (Z.lor (Z.land b c) (Z.land (Z.lnot b) d), 0x5A827999)
    else if (t <? 40)%nat then (Z.lxor (Z.lxor b c) d, 0x6ED9EBA1)
    else if (t <? 60)%nat then
      (Z.lor (Z.lor (Z.land b c) (Z.land b d)) (Z.land c d), 0x8F1BBCDC)
    else (Z.lxor (Z.lxor b c) d, 0xCA62C1D6) in
  (word (rotl 5 a + f + e + k + w), a, rotl 30 b, c, d).

Definition compress (h : Z * Z * Z * Z * Z) (block : list Z) : Z * Z * Z * Z * Z :=
  let w := rev (schedule 64 (rev (be_word <$> chunks 16 4 block))) in
  let '(a, b, c, d, e) := fold_left round (zip (seq 0 80) w) h in
  let '(h0, h1, h2, h3, h4) := h in
  (word (h0 + a), word (h1 + b), word (h2 + c), word (h3 + d), word (h4 + e)).

Definition sha1 (msg : list Z) : list Z :=
  let padded := pad msg in
  let init := (0x67452301, 0xEFCDAB89, 0x98BADCFE, 0x10325476, 0xC3D2E1F0) in
  let '(h0, h1, h2, h3, h4) :=
    fold_left compress (chunks (length padded / 64)%nat 64 padded) init in
  be_bytes 4 h0 ++ be_bytes 4 h1 ++ be_bytes 4 h2 ++ be_bytes 4 h3 ++ be_bytes 4 h4.

(** *** HMAC with SHA-1 (block size 64) *)
Definition hmac (key msg : list Z) : list Z :=
  let key := if (64 <? length key)%nat then sha1 key else key in
  let key := key ++ repeat 0 (64 - length key)%nat in
  let ipad := (λ b, Z.lxor b 0x36) <$> key in
  let opad := (λ b, Z.lxor b 0x5C) <$> key in
  sha1 (opad ++ sha1 (ipad ++ msg)).

Definition hex_digit (n : Z) : ascii :=
  nth (Z.to_nat n) (String.list_ascii_of_string "0123456789abcdef") "0"%char.

Definition hex (bs : list Z) : string :=
  String.string_of_list_ascii (flat_map (λ b, [hex_digit (b / 16); hex_digit (b mod 16)]) bs).

(** *** URL-safe base64 *)
Definition alphabet : list ascii :=
  String.list_ascii_of_string
    "ABCDEFGHIJKLMNOPQRSTUVWXYZabcdefghijklmnopqrstuvwxyz0123456789-_".

Definition sextet (n : Z) : ascii := nth (Z.to_nat n) alphabet "A"%char.

Fixpoint index_in (c : ascii) (l : list ascii) (i : Z) : option Z :=
  match l with
  | [] => None
  | a :: l' => if Ascii.eqb a c then Some i else index_in c l' (i + 1)
  end.

Definition unsextet (c : ascii) : option Z := index_in c alphabet 0.

Fixpoint b64encode (bs : list Z) : list ascii :=
  match bs with
  | a :: b :: c :: rest =>
      sextet (a / 4) :: sextet (a mod 4 * 16 + b / 16)
        :: sextet (b mod 16 * 4 + c / 64) :: sextet (c mod 64) :: b64encode rest
  | [a; b] =>
      [sextet (a / 4); sextet (a mod 4 * 16 + b / 16); sextet (b mod 16 * 4); "="%char]
  | [a] => [sextet (a / 4); sextet (a mod 4 * 16); "="%char; "="%char]
  | [] => []
  end.

(** Padded input in the alphabet.  (Python also skips characters
    outside the alphabet; such input is not covered and is refused.) *)
Fixpoint b64decode (cs : list ascii) : option (list Z) :=
  match cs with
  | [] => Some []
  | a :: b :: c :: d :: rest =>
      x ← unsextet a;
      y ← unsextet b;
      if Ascii.eqb d "=" then
        match rest with
        | [] =>
            if Ascii.eqb c "=" then Some [x * 4 + y / 16]
            else z ← unsextet c; Some [x * 4 + y / 16; y mod 16 * 16 + z / 4]
        | _ => None
        end
      else
        z ← unsextet c;
        u ← unsextet d;
        more ← b64decode rest;
        Some (x * 4 + y / 16 :: y mod 16 * 16 + z / 4 :: z mod 4 * 64 + u :: more)
  | _ => None
  end.

Definition urlsafe_b64encode (s : string) : string :=
  String.string_of_list_ascii (b64encode (bytes_of s)).

Definition urlsafe_b64decode (v : pyval) : result string :=
  match v with
  | VStr s =>
      match b64decode (String.list_ascii_of_string s) with
      | Some bs => Ok (string_of bs)
      | None => Raise TypeError
      end
  | _ => Raise AttributeError
  end.

Definition hmac_sha1 (key msg : string) : string :=
  string_of (hmac (bytes_of key) (bytes_of msg)).

(** *** [urllib.urlencode] *)
Definition always_safe (c : ascii) : bool :=
  let n := nat_of_ascii c in
  ((65 <=? n) && (n <=? 90) || (97 <=? n) && (n <=? 122) || (48 <=? n) && (n <=? 57)
   || Ascii.eqb c "_" || Ascii.eqb c "." || Ascii.eqb c "-")%nat.

Definition upper_hex_digit (n : Z) : ascii :=
  nth (Z.to_nat n) (String.list_ascii_of_string "0123456789ABCDEF") "0"%char.

Fixpoint quote_plus (s : string) : string :=
  match s with
  | EmptyString => EmptyString
  | String c s' =>
      if always_safe c then String c (quote_plus s')
      else if Ascii.eqb c " " then String "+" (quote_plus s')
      else String "%" (String (upper_hex_digit (byte_of c / 16))
                         (String (upper_hex_digit (byte_of c mod 16)) (quote_plus s')))
  end.

(** [str(v)] where it is plain text.  (The text of a float or of a
    container is not covered; [urlencode] below refuses them.) *)
Definition str (v : pyval) : option string :=
  match v with
  | VStr s => Some s
  | VNone => Some "None"
  | VBool b => Some (if b then "True" else "False")
  | VInt z => Some (pretty z)
  | _ => None
  end.

(** The items are taken in the order of [map_to_list]; a Python 2 dict
    yields them in an order of its own. *)
Definition urlencode (params : gmap string pyval) : result string :=
  pairs ← mapM_result
             (λ kv : string * pyval,
                match str kv.2 with
                | Some s => Ok (quote_plus kv.1 +:+ "=" +:+ quote_plus s)
                | None => Raise TypeError
                end)
             (map_to_list params);
  Ok (String.concat "&" pairs).

End Std.

(** ** The class *)

(** The instance attributes [GoogleV3.__init__] sets (lines 51-62). *)
Record GoogleV3 : Type := mkGoogleV3 {
  domain : string;
  protocol : string;
  doc : pyval;
  premier : bool;
  client_id : option string;
  secret_key : option string
}.

Definition with_doc (d : pyval) (self : GoogleV3) : GoogleV3 :=
  {| domain := domain self; protocol := protocol self; doc := d;
     premier := premier self; client_id := client_id self;
     secret_key := secret_key self |}.

Definition with_protocol (p : string) (self : GoogleV3) : GoogleV3 :=
  {| domain := domain self; protocol := p; doc := doc self;
     premier := premier self; client_id := client_id self;
     secret_key := secret_key self |}.

(** The configuration: every attribute but [doc]. *)
Definition config (self : GoogleV3) : string * string * bool * option string * option string :=
  (domain self, protocol self, premier self, client_id self, secret_key self).

(** [GoogleV3.__init__] (lines 24-62), for the documented argument types:
    [domain] and [protocol] strings, [client_id] and [secret_key] a string
    or [None].  The base class initialiser only stores the proxies. *)
Definition __init__ (domain protocol : string) (client_id secret_key : option string)
    : result GoogleV3 :=
  if negb (String.eqb protocol "http" || String.eqb protocol "https") then
    Raise ValueError
  else if truthy_opt client_id && negb (truthy_opt secret_key) then
    Raise ValueError
  else if truthy_opt secret_key && negb (truthy_opt client_id) then
    Raise ValueError
  else
    let domain := strip "/" domain in
    if truthy_opt client_id && truthy_opt secret_key then
      Ok (mkGoogleV3 domain protocol (VDict ∅) true client_id secret_key)
    else
      Ok (mkGoogleV3 domain protocol (VDict ∅) false None None).

(** [GoogleV3._check_status] (lines 205-228): every branch raises. *)
Definition _check_status (status : pyval) : result pyval :=
  if eq_str status "ZERO_RESULTS" then Raise GQueryError
  else if eq_str status "OVER_QUERY_LIMIT" then Raise GTooManyQueriesError
  else if eq_str status "REQUEST_DENIED" then Raise GQueryError
  else if eq_str status "INVALID_REQUEST" then Raise GQueryError
  else Raise GeocoderResultError.

(** [GoogleV3._coerce_point_to_string] (lines 193-203).  Both branches
    hand the two coordinates to [join] as two arguments. *)
Definition _coerce_point_to_string (point : pyobj) : result pyval :=
  match point with
  | ObjPoint p => join "," [latitude p; longitude p]
  | ObjValue (VList _ as v) | ObjValue (VTuple _ as v) =>
      a ← getitem v (VInt 0);
      b ← getitem v (VInt 1);
      join "," [a; b]
  | ObjValue v => Ok v
  end.

(** The inner function [parse_place] of [parse_json] (lines 181-186). *)
Definition parse_place (place : pyval) : result pyval :=
  location ← get place "formatted_address" VNone;
  geometry ← getitem place (VStr "geometry");
  loc ← getitem geometry (VStr "location");
  latitude ← getitem loc (VStr "lat");
  geometry' ← getitem place (VStr "geometry");
  loc' ← getitem geometry' (VStr "location");
  longitude ← getitem loc' (VStr "lng");
  Ok (VTuple [location; VTuple [latitude; longitude]]).

(** What [parse_json] does with the decoded document (lines 175-191). *)
Definition parse_doc (d : pyval) (exactly_one : bool) : result pyval :=
  places ← get d "results" (VList []);
  if negb (truthy places) then
    status ← get d "status" VNone;
    _ ← _check_status status;
    Ok VNone
  else if exactly_one then
    place ← getitem places (VInt 0);
    parse_place place
  else
    items ← iter places;
    VList <$> mapM_result parse_place items.

(** ** Collaborators *)

(** What the module imports and inherits.  [response] is the body a
    transport returns and [world] the state of the outside world the
    transport reads and changes. *)
Class Collaborators (response world : Type) : Type := {
  (** [urllib.urlencode] on a parameter dict. *)
  urlencode : gmap string pyval → result string;
  (** [base64.urlsafe_b64decode], [base64.urlsafe_b64encode] and
      [hmac.new(key, msg, hashlib.sha1).digest()]. *)
  urlsafe_b64decode : pyval → result string;
  urlsafe_b64encode : string → string;
  hmac_sha1 : string → string → string;
  (** [geopy.util.decode_page] and [json.loads]. *)
  decode_page : response → result string;
  json_loads : string → result pyval;
  (** The base class: [self.urlopen(url)], [self.format_string % query]
      and [Geocoder.geocode(query)]. *)
  urlopen : string → world → result response * world;
  format_query : pyval → result pyval;
  Geocoder_geocode : pyval → result unit
}.

(** The argument of [parse_json]: text, or a body still to be decoded. *)
Inductive page (response : Type) : Type :=
| Text (s : string)
| Raw (r : response).
Arguments Text {response} s.
Arguments Raw {response} r.

(** Methods that touch the instance or the transport: a computation
    reads and writes the instance and the world, and may raise; what it
    wrote before raising stays written. *)
Definition M (world : Type) (A : Type) : Type :=
  GoogleV3 → world → result A * GoogleV3 * world.

#[global] Instance M_ret {world} : MRet (M world) := λ _ a self w, (Ok a, self, w).
#[global] Instance M_bind {world} : MBind (M world) := λ _ _ f m self w,
  match m self w with
  | (Ok a, self', w') => f a self' w'
  | (Raise e, self', w') => (Raise e, self', w')
  end.

Definition lift {world A} (r : result A) : M world A := λ self w, (r, self, w).
Definition this {world} : M world GoogleV3 := λ self w, (Ok self, self, w).
Definition set_doc {world} (d : pyval) : M world unit :=
  λ self w, (Ok tt, with_doc d self, w).

(** A computation that leaves every attribute but [doc] as it found it. *)
Definition writes_only_doc {world A} (m : M world A) : Prop :=
  ∀ self w, ∃ d, (m self w).1.2 = with_doc d self.

(** What a run returned or raised, and the instance it left. *)
Definition outcome {world A} (run : result A * GoogleV3 * world) : result A := run.1.1.
Definition instance_after {world A} (run : result A * GoogleV3 * world) : GoogleV3 := run.1.2.

Section Methods.

Context {response world : Type} {lib : Collaborators response world}.

(** *** URL builders *)

(** [GoogleV3._get_url] (lines 64-67). *)
Definition _get_url (self : GoogleV3) (params : gmap string pyval) : result string :=
  encoded ← urlencode params;
  format "http://%(domain)s/maps/api/geocode/json?%(params)s"
    (<["domain" := domain self]> (<["params" := encoded]> ∅)).

(** [GoogleV3._get_signed_url] (lines 69-85).  The first statement
    stores into the caller's dict, so the dict is returned with the
    result, whether or not a later statement raises. *)
Definition _get_signed_url (self : GoogleV3) (params : gmap string pyval)
    : gmap string pyval * result string :=
  let params := <["client" := of_opt (client_id self)]> params in
  (params,
   encoded ← urlencode params;
   let url_params : gmap string string :=
     <["protocol" := protocol self]>
       (<["domain" := domain self]> (<["params" := encoded]> ∅)) in
   secret ← urlsafe_b64decode (of_opt (secret_key self));
   url_part ← format "/maps/api/geocode/json?%(params)s" url_params;
   let url_params := <["url_part" := url_part]> url_params in
   let signature := hmac_sha1 secret url_part in
   let url_params := <["signature" := urlsafe_b64encode signature]> url_params in
   format "%(protocol)s://%(domain)s%(url_part)s&signature=%(signature)s" url_params).

(** The dispatch both [geocode] and [reverse] spell out (lines 128-131
    and 162-165). *)
Definition request_url (self : GoogleV3) (params : gmap string pyval) : result string :=
  if negb (premier self) then _get_url self params
  else (_get_signed_url self params).2.

(** *** Fetching and parsing *)

Definition fetch (url : string) : M world response := λ self w,
  let '(r, w') := urlopen url w in (r, self, w').

(** Lines 172-173: anything but text goes through [decode_page]. *)
Definition page_text (page : page response) : result string :=
  match page with
  | Text s => Ok s
  | Raw r => decode_page r
  end.

(** [GoogleV3.parse_json] (lines 170-191). *)
Definition parse_json (page : page response) (exactly_one : bool) : M world pyval :=
  text ← lift (page_text page);
  d ← lift (json_loads text);
  _ ← set_doc d;
  self ← this;
  lift (parse_doc (doc self) exactly_one).

(** [GoogleV3.geocode_url] (lines 87-90). *)
Definition geocode_url (url : string) (exactly_one : bool) : M world pyval :=
  r ← fetch url;
  parse_json (Raw r) exactly_one.

(** [GoogleV3.geocode] (lines 92-134). *)
Definition geocode (query bounds region language : pyval) (sensor exactly_one : bool)
    : M world pyval :=
  _ ← lift (Geocoder_geocode query);
  address ← lift (format_query query);
  let params : gmap string pyval :=
    <["address" := address]> (<["sensor" := VStr (lower (str_bool sensor))]> ∅) in
  let params := if truthy bounds then <["bounds" := bounds]> params else params in
  let params := if truthy region then <["region" := region]> params else params in
  let params := if truthy language then <["language" := language]> params else params in
  self ← this;
  url ← lift (request_url self params);
  geocode_url url exactly_one.

(** [GoogleV3.reverse] (lines 136-168). *)
Definition reverse (point : pyobj) (language : pyval) (sensor exactly_one : bool)
    : M world pyval :=
  latlng ← lift (_coerce_point_to_string point);
  let params : gmap string pyval :=
    <["latlng" := latlng]> (<["sensor" := VStr (lower (str_bool sensor))]> ∅) in
  let params := if truthy language then <["language" := language]> params else params in
  self ← this;
  url ← lift (request_url self params);
  geocode_url url exactly_one.

(** *** Sequences of calls *)

Inductive call : Type :=
| Geocode (query bounds region language : pyval) (sensor exactly_one : bool)
| Reverse (point : pyobj) (language : pyval) (sensor exactly_one : bool)
| ParseJson (page : page response) (exactly_one : bool).

Definition perform (c : call) : M world pyval :=
  match c with
  | Geocode query bounds region language sensor exactly_one =>
      geocode query bounds region language sensor exactly_one
  | Reverse point language sensor exactly_one =>
      reverse point language sensor exactly_one
  | ParseJson page exactly_one => parse_json page exactly_one
  end.

(** The calls run one after the other on the same instance; a call
    that raises leaves the instance as it was when it raised, and the
    caller goes on to the next call. *)
Fixpoint perform_all (cs : list call) (self : GoogleV3) (w : world) : GoogleV3 * world :=
  match cs with
  | [] => (self, w)
  | c :: cs' => let '(_, self', w') := perform c self w in perform_all cs' self' w'
  end.

(** The results [parse_json] hands to [parse_place]: the first one
    when [exactly_one] is set, all of them otherwise (lines 188-191). *)
Definition parsed_results (places : list pyval) (exactly_one : bool) : list pyval :=
  if exactly_one then take 1 places else places.

End Methods.

(** ** The specification's vocabulary *)

(** A credential counts as supplied when it is given and not empty. *)
Definition supplied (o : option string) : Prop := ∃ s, o = Some s ∧ s ≠ "".

(** The status table (section 4.5 of the specification). *)
Definition status_error (status : option pyval) : exn :=
  match status with
  | Some (VStr s) =>
      if decide (s = "ZERO_RESULTS" ∨ s = "REQUEST_DENIED" ∨ s = "INVALID_REQUEST")
      then GQueryError
      else if decide (s = "OVER_QUERY_LIMIT") then GTooManyQueriesError
      else GeocoderResultError
  | _ => GeocoderResultError
  end.

(** Fields of a response object: [member v k] is [v.k] when [v] is an
    object that has the key. *)
Definition member (v : pyval) (k : string) : option pyval :=
  match v with
  | VDict d => d !! k
  | _ => None
  end.

(** [geometry.location.k] of a result. *)
Definition coordinate (place : pyval) (k : string) : option pyval :=
  geometry ← member place "geometry";
  loc ← member geometry "location";
  member loc k.

(** [t] is the (formatted_address, (lat, lng)) tuple of [place]. *)
Definition tuple_of (place t : pyval) : Prop :=
  ∃ lat lng,
    coordinate place "lat" = Some lat ∧ coordinate place "lng" = Some lng ∧
    t = VTuple [default VNone (member place "formatted_address"); VTuple [lat; lng]].

(** A result that lacks one of its coordinates. *)
Definition lacks_coordinate (place : pyval) : Prop :=
  coordinate place "lat" = None ∨ coordinate place "lng" = None.

(** ** A stub transport and canned responses *)
Module Stub.

Definition location (lat lng : pyval) : pyval :=
  VDict (<["lat" := lat]> (<["lng" := lng]> ∅)).

Definition place (address : string) (lat lng : pyval) : pyval :=
  VDict (<["formatted_address" := VStr address]>
           (<["geometry" := VDict (<["location" := location lat lng]> ∅)]> ∅)).

Definition fields_of (status : string) (results : list pyval) : gmap string pyval :=
  <["status" := VStr status]> (<["results" := VList results]> ∅).

Definition response_of (status : string) (results : list pyval) : pyval :=
  VDict (fields_of status results).

Definition amphitheatre : pyval :=
  place "1600 Amphitheatre Parkway, Mountain View, CA, USA"
    (VFloat 37.4224764) (VFloat (-122.0842499)).

Definition bedford : pyval :=
  place "277 Bedford Avenue, Brooklyn, NY 11211, USA"
    (VFloat 40.714232) (VFloat (-73.9612889)).

Definition williamsburg : pyval :=
  place "Williamsburg, Brooklyn, NY, USA" (VFloat 40.7064461) (VFloat (-73.9536163)).

(** A result without [formatted_address], and one without [lng]. *)
Definition unnamed : pyval :=
  VDict (<["geometry" := VDict (<["location" := location (VFloat 1.5) (VFloat 2.5)]> ∅)]> ∅).

Definition half : pyval :=
  VDict (<["formatted_address" := VStr "Nowhere"]>
           (<["geometry" := VDict (<["location" := VDict (<["lat" := VFloat 1.5]> ∅)]> ∅)]> ∅)).

(** The canned bodies, by name, and the document each decodes to. *)
Definition canned : list (string * pyval) :=
  [ ("one_result.json", response_of "OK" [amphitheatre]);
    ("two_results.json", response_of "OK" [bedford; williamsburg]);
    ("zero_results.json", response_of "ZERO_RESULTS" []);
    ("over_query_limit.json", response_of "OVER_QUERY_LIMIT" []);
    ("unnamed.json", response_of "OK" [unnamed]);
    ("half.json", response_of "OK" [amphitheatre; half]) ].

Fixpoint assoc (key : string) (l : list (string * pyval)) : option pyval :=
  match l with
  | [] => None
  | (k, v) :: l' => if String.eqb k key then Some v else assoc key l'
  end.

Definition loads (text : string) : result pyval :=
  match assoc text canned with
  | Some d => Ok d
  | None => Raise ValueError
  end.

(** The world is the queue of bodies the transport will serve. *)
Definition serve (url : string) (w : list string) : result string * list string :=
  match w with
  | [] => (Raise IOError, [])
  | body :: w' => (Ok body, w')
  end.

Definition text_of (query : pyval) : result pyval :=
  match Std.str query with
  | Some s => Ok (VStr s)
  | None => Raise TypeError
  end.

#[export] Instance stub : Collaborators string (list string) := {|
  urlencode := Std.urlencode;
  urlsafe_b64decode := Std.urlsafe_b64decode;
  urlsafe_b64encode := Std.urlsafe_b64encode;
  hmac_sha1 := Std.hmac_sha1;
  decode_page := Ok;
  json_loads := loads;
  urlopen := serve;
  format_query := text_of;
  Geocoder_geocode := λ _, Ok tt
|}.

Definition new_york : gmap string pyval :=
  <["address" := VStr "New York"]> (<["sensor" := VStr "false"]> ∅).

Definition tuple (address : string) (lat lng : pyval) : pyval :=
  VTuple [VStr address; VTuple [lat; lng]].

Definition plain : GoogleV3 :=
  mkGoogleV3 "maps.googleapis.com" "https" (VDict ∅) false None None.

Definition signing : GoogleV3 :=
  mkGoogleV3 "maps.googleapis.com" "https" (VDict ∅) true
    (Some "clientID") (Some "vNIXE0xscrmjlyV-12Nj_BvUPaw=").

End Stub.

(** The world a run left. *)
Definition world_after {world A} (run : result A * GoogleV3 * world) : world := run.2.

(** A string that begins, or ends, with the character [c]. *)
Definition begins_with (c : ascii) (s : string) : Prop := ∃ rest, s = String c rest.
Definition ends_with (c : ascii) (s : string) : Prop := ∃ rest, s = rest +:+ String c "".

(** The keys [geocode] and [reverse] may put in a request. *)
Definition geocode_keys : list string := ["address"; "sensor"; "bounds"; "region"; "language"].
Definition reverse_keys : list string := ["latlng"; "sensor"; "language"].

(** [str(sensor).lower()] for a bool, as the API spells it. *)
Definition sensor_flag (sensor : bool) : pyval := VStr (if sensor then "true" else "false").

(** A value that is a list or a tuple ([isinstance(v, (list, tuple))]). *)
Definition is_sequence (v : pyval) : bool :=
  match v with
  | VList _ | VTuple _ => true
  | _ => false
  end.

(** The errors a failed attribute or subscript lookup raises. *)
Definition builtin_lookup_error (e : exn) : Prop :=
  e = AttributeError ∨ e = KeyError ∨ e = TypeError.

(** ** Responses that are not what the API documents *)
Module Edge.

(** No [results] key at all, [results] null, a document that is an
    array, and a document whose [results] is an object. *)
Definition denied : gmap string pyval := <["status" := VStr "REQUEST_DENIED"]> ∅.

Definition null_results : gmap string pyval :=
  <["status" := VStr "INVALID_REQUEST"]> (<["results" := VNone]> ∅).

Definition canned : list (string * pyval) :=
  [ ("request_denied.json", VDict denied);
    ("null_results.json", VDict null_results);
    ("array.json", VList [Stub.amphitheatre]);
    ("object_results.json",
     VDict (<["status" := VStr "OK"]> (<["results" := Stub.amphitheatre]> ∅))) ].

Definition loads (text : string) : result pyval :=
  match Stub.assoc text canned with
  | Some d => Ok d
  | None => Stub.loads text
  end.

(** A decoder that gives up on one body. *)
Definition decode (body : string) : result string :=
  if String.eqb body "garbled" then Raise UnicodeError else Ok body.

Definition stub : Collaborators string (list string) := {|
  urlencode := Std.urlencode;
  urlsafe_b64decode := Std.urlsafe_b64decode;
  urlsafe_b64encode := Std.urlsafe_b64encode;
  hmac_sha1 := Std.hmac_sha1;
  decode_page := decode;
  json_loads := loads;
  urlopen := Stub.serve;
  format_query := Stub.text_of;
  Geocoder_geocode := λ _, Ok tt
|}.

End Edge.

(** ** Properties *)

(** *** Helper facts *)

Lemma truthy_opt_supplied (o : option string) : truthy_opt o = true ↔ supplied o.
Proof.
  unfold supplied. destruct o as [s|]; simpl.
  - rewrite negb_true_iff, String.eqb_neq. split.
    + intros Hne. by exists s.
    + by intros (s' & [= <-] & Hne).
  - split; [done|]. by intros (s & ? & _).
Qed.

Lemma protocol_check (p : string) :
  (String.eqb p "http" || String.eqb p "https") = true ↔ p = "http" ∨ p = "https".
Proof.
  rewrite orb_true_iff. by rewrite !String.eqb_eq.
Qed.

Lemma append_empty_r (s : string) : s +:+ "" = s.
Proof. induction s as [|c s IH]; [done|]. exact (f_equal (String c) IH). Qed.

Lemma init_ok_inv (d p : string) (cid key : option string) (self : GoogleV3) :
  __init__ d p cid key = Ok self →
  (p = "http" ∨ p = "https") ∧ truthy_opt cid = truthy_opt key ∧
  self = mkGoogleV3 (strip "/" d) p (VDict ∅) (truthy_opt cid)
           (if truthy_opt cid then cid else None) (if truthy_opt cid then key else None).
Proof.
  unfold __init__. intros Hinit.
  destruct (String.eqb p "http" || String.eqb p "https") eqn:Hp; simpl in Hinit; [|done].
  apply protocol_check in Hp.
  destruct (truthy_opt cid) eqn:Hc, (truthy_opt key) eqn:Hk; simpl in Hinit;
    try done; by injection Hinit as <-.
Qed.

(** The two format strings of the signed URL builder, evaluated. *)
Lemma format_url_part (pr dm enc : string) :
  format "/maps/api/geocode/json?%(params)s"
    (<["protocol" := pr]> (<["domain" := dm]> (<["params" := enc]> ∅)))
  = Ok ("/maps/api/geocode/json?" +:+ enc).
Proof.
  transitivity (Ok (A := string) ("/maps/api/geocode/json?" +:+ enc +:+ "")).
  - vm_compute. reflexivity.
  - by rewrite append_empty_r.
Qed.

Lemma format_signed_url (pr dm enc part sig : string) :
  format "%(protocol)s://%(domain)s%(url_part)s&signature=%(signature)s"
    (<["signature" := sig]>
       (<["url_part" := part]>
          (<["protocol" := pr]> (<["domain" := dm]> (<["params" := enc]> ∅)))))
  = Ok (pr +:+ "://" +:+ dm +:+ part +:+ "&signature=" +:+ sig).
Proof.
  transitivity (Ok (A := string) (pr +:+ "://" +:+ dm +:+ part +:+ "&signature=" +:+ sig +:+ "")).
  - vm_compute. reflexivity.
  - by rewrite append_empty_r.
Qed.

Lemma format_plain_url (dm enc : string) :
  format "http://%(domain)s/maps/api/geocode/json?%(params)s"
    (<["domain" := dm]> (<["params" := enc]> ∅))
  = Ok ("http://" +:+ dm +:+ "/maps/api/geocode/json?" +:+ enc).
Proof.
  transitivity (Ok (A := string) ("http://" +:+ dm +:+ "/maps/api/geocode/json?" +:+ enc +:+ "")).
  - vm_compute. reflexivity.
  - by rewrite append_empty_r.
Qed.

Create HintDb frame.

(** One step of a computation in [result]. *)
Ltac run_result := unfold mbind, result_bind, fmap, result_fmap; cbv beta iota.

(** *** Traversals *)

Lemma mapM_result_ok {A B} (f : A → result B) (l : list A) (l' : list B) :
  Forall2 (λ x y, f x = Ok y) l l' → mapM_result f l = Ok l'.
Proof.
  induction 1 as [|x y l l' Hxy _ IH]; simpl; [done|].
  rewrite Hxy. run_result. by rewrite IH.
Qed.

Lemma mapM_result_raises {A B} (f : A → result B) (l : list A) (x : A) :
  x ∈ l → raises (f x) → raises (mapM_result f l).
Proof.
  intros Hin [e He]. induction l as [|y l IH]; [by apply elem_of_nil in Hin|].
  simpl. apply elem_of_cons in Hin as [<-|Hin].
  - rewrite He. by exists e.
  - destruct (f y) as [b|e1]; run_result; [|by exists e1].
    destruct (IH Hin) as [e2 ->]. by exists e2.
Qed.

(** *** Fields and subscripts *)

Lemma getitem_member (v : pyval) (k : string) (x : pyval) :
  getitem v (VStr k) = Ok x ↔ member v k = Some x.
Proof.
  destruct v as [| | | | |l|l|d]; simpl; try (split; discriminate).
  destruct (d !! k) as [y|]; split; congruence.
Qed.

(** [parse_place] returns exactly the tuple of a result that has both
    coordinates, and raises on any other value. *)
Lemma parse_place_ok (place t : pyval) : parse_place place = Ok t ↔ tuple_of place t.
Proof.
  unfold tuple_of, coordinate, parse_place. destruct place as [| | | | |l|l|d];
    try (split; [discriminate|intros (? & ? & ? & _); discriminate]).
  unfold get. run_result. simpl member.
  change (getitem (VDict d) (VStr "geometry")) with
    (match d !! "geometry" with Some x => Ok x | None => Raise KeyError end).
  destruct (d !! "geometry") as [g|]; simpl;
    [|split; [discriminate|intros (? & ? & ? & _); discriminate]].
  destruct (getitem g (VStr "location")) as [loc|e] eqn:Hloc.
  - apply getitem_member in Hloc as ->. simpl.
    destruct (getitem loc (VStr "lat")) as [lat|e] eqn:Hlat.
    + apply getitem_member in Hlat as ->.
      destruct (getitem loc (VStr "lng")) as [lng|e] eqn:Hlng.
      * apply getitem_member in Hlng as ->. split.
        -- intros [= <-]. by exists lat, lng.
        -- by intros (? & ? & [= <-] & [= <-] & ->).
      * split; [discriminate|]. intros (? & lng & _ & Hlng' & _).
        apply getitem_member in Hlng'. congruence.
    + split; [discriminate|]. intros (lat & ? & Hlat' & _).
      apply getitem_member in Hlat'. congruence.
  - destruct (member g "location") as [loc|] eqn:Hm.
    + apply getitem_member in Hm. congruence.
    + simpl. split; [discriminate|intros (? & ? & ? & _); discriminate].
Qed.

Lemma parse_place_raises (place : pyval) : lacks_coordinate place → raises (parse_place place).
Proof.
  intros Hlack. destruct (parse_place place) as [t|e] eqn:Hp; [|by exists e].
  apply parse_place_ok in Hp as (lat & lng & Hlat & Hlng & _).
  destruct Hlack; congruence.
Qed.

Lemma check_status_error (status : option pyval) :
  _check_status (default VNone status) = Raise (status_error status).
Proof.
  unfold _check_status, status_error. destruct status as [[| | | |s| | |]|]; simpl; try done.
  destruct (decide (s = "ZERO_RESULTS" ∨ s = "REQUEST_DENIED" ∨ s = "INVALID_REQUEST"))
    as [[-> | [-> | ->]] | Hother]; [reflexivity..|].
  destruct (decide (s = "OVER_QUERY_LIMIT")) as [-> | Hlimit]; [reflexivity|].
  rewrite (proj2 (String.eqb_neq s "ZERO_RESULTS")) by tauto.
  rewrite (proj2 (String.eqb_neq s "OVER_QUERY_LIMIT")) by tauto.
  rewrite (proj2 (String.eqb_neq s "REQUEST_DENIED")) by tauto.
  by rewrite (proj2 (String.eqb_neq s "INVALID_REQUEST")) by tauto.
Qed.

Section Properties.

Context {response world : Type} {lib : Collaborators response world}.

(** C4.  Whatever protocol the instance is configured with, the plain
    URL is [http://<domain>/maps/api/geocode/json?<urlencoded params>];
    it raises only when [urlencode] does. *)
Theorem get_url_forces_http (self : GoogleV3) (p : string) (params : gmap string pyval) :
  _get_url (with_protocol p self) params
  = (λ encoded, "http://" +:+ domain self +:+ "/maps/api/geocode/json?" +:+ encoded)
      <$> urlencode params.
Proof.
  unfold _get_url. destruct (urlencode params) as [encoded|e]; run_result; [|done].
  apply format_plain_url.
Qed.

(** C3.  With client id [cid] and secret key [key], the signed URL
    builder stores [client=cid] into the parameters, signs the string
    [/maps/api/geocode/json?<urlencoded params>] with HMAC-SHA1 under the
    URL-safe-base64 decoding of [key], and returns
    [<protocol>://<domain><path+query>&signature=<encoded digest>] with
    the configured protocol and domain. *)
Theorem get_signed_url_spec (self : GoogleV3) (params : gmap string pyval)
    (cid key encoded secret : string) :
  client_id self = Some cid →
  secret_key self = Some key →
  urlencode (<["client" := VStr cid]> params) = Ok encoded →
  urlsafe_b64decode (VStr key) = Ok secret →
  let path_query := "/maps/api/geocode/json?" +:+ encoded in
  let signature := urlsafe_b64encode (hmac_sha1 secret path_query) in
  _get_signed_url self params
  = (<["client" := VStr cid]> params,
     Ok (protocol self +:+ "://" +:+ domain self +:+ path_query
           +:+ "&signature=" +:+ signature)).
Proof.
  intros Hcid Hkey Henc Hdec path_query signature.
  unfold _get_signed_url. rewrite Hcid, Hkey.
  change (of_opt (Some cid)) with (VStr cid). change (of_opt (Some key)) with (VStr key).
  f_equal. rewrite Henc. run_result. rewrite Hdec. run_result.
  rewrite format_url_part. run_result. apply format_signed_url.
Qed.

(** C5.  Construction raises exactly when the protocol is neither
    [http] nor [https] or exactly one of the two credentials is
    supplied (given and not empty); when it succeeds, the instance is
    in premier mode exactly when both were supplied. *)
Theorem init_raises_iff (d p : string) (cid key : option string) :
  (raises (__init__ d p cid key) ↔
     (p ≠ "http" ∧ p ≠ "https")
     ∨ (supplied cid ∧ ¬ supplied key) ∨ (supplied key ∧ ¬ supplied cid))
  ∧ (∀ self, __init__ d p cid key = Ok self →
       (premier self = true ↔ supplied cid ∧ supplied key)).
Proof.
  split.
  - rewrite <- !truthy_opt_supplied. unfold raises, __init__.
    destruct (String.eqb_spec p "http") as [->|Hhttp]; simpl;
      [|destruct (String.eqb_spec p "https") as [->|Hhttps]; simpl].
    1,2: destruct (truthy_opt cid), (truthy_opt key); simpl;
      (split; [intros [e He]; try done; auto | intros [[? ?]|[[? ?]|[? ?]]]; try done; eauto]).
    split; [auto | eauto].
  - intros self Hinit. apply init_ok_inv in Hinit as (_ & Heq & ->). simpl.
    rewrite <- !truthy_opt_supplied, <- Heq. tauto.
Qed.

(** C10.  Empty-string credentials construct the same instance as
    absent ones: not premier, no credentials stored, and its requests
    go to the plain URL builder. *)
Theorem init_empty_credentials (d p : string) :
  p = "http" ∨ p = "https" →
  __init__ d p (Some "") (Some "")
  = Ok (mkGoogleV3 (strip "/" d) p (VDict ∅) false None None)
  ∧ __init__ d p (Some "") (Some "") = __init__ d p None None
  ∧ ∀ self params,
      __init__ d p (Some "") (Some "") = Ok self →
      premier self = false ∧ request_url self params = _get_url self params.
Proof.
  intros Hp. apply protocol_check in Hp as Hp'.
  assert (Hinit : __init__ d p (Some "") (Some "")
                  = Ok (mkGoogleV3 (strip "/" d) p (VDict ∅) false None None)).
  { unfold __init__. by rewrite Hp'. }
  split; [done|]. split.
  - rewrite Hinit. unfold __init__. by rewrite Hp'.
  - intros self params. rewrite Hinit. by intros [= <-].
Qed.

(** C1 (the code departs from it).  The coercion raises [TypeError]
    for every [Point] and every two-element list or tuple, because
    [join] is handed two arguments; only a string is passed through. *)
Theorem coerce_point_to_string_raises :
  (∀ p, _coerce_point_to_string (ObjPoint p) = Raise TypeError)
  ∧ (∀ lat lng, _coerce_point_to_string (ObjValue (VTuple [lat; lng])) = Raise TypeError)
  ∧ (∀ lat lng, _coerce_point_to_string (ObjValue (VList [lat; lng])) = Raise TypeError)
  ∧ (∀ s, _coerce_point_to_string (ObjValue (VStr s)) = Ok (VStr s)).
Proof. repeat split. Qed.


(** *** Parsing *)

(** [parse_json] by cases: the document is stored as soon as it is
    decoded, and what follows works on the stored document. *)
Lemma parse_json_run (pg : page response) (exactly_one : bool) (self : GoogleV3) (w : world) :
  parse_json pg exactly_one self w
  = match page_text pg ≫= json_loads with
    | Ok d => (parse_doc d exactly_one, with_doc d self, w)
    | Raise e => (Raise e, self, w)
    end.
Proof.
  unfold parse_json, mbind, M_bind, result_bind, lift, set_doc, this.
  destruct (page_text pg) as [text|e]; [|done].
  by destruct (json_loads text) as [d|e].
Qed.

Lemma parse_json_decoded (pg : page response) (exactly_one : bool) (self : GoogleV3)
    (w : world) (text : string) (d : pyval) :
  page_text pg = Ok text → json_loads text = Ok d →
  parse_json pg exactly_one self w = (parse_doc d exactly_one, with_doc d self, w).
Proof.
  intros Htext Hdoc. rewrite parse_json_run, Htext. run_result. by rewrite Hdoc.
Qed.

Lemma parse_doc_results (m : gmap string pyval) (place : pyval) (places : list pyval)
    (exactly_one : bool) :
  m !! "results" = Some (VList (place :: places)) →
  parse_doc (VDict m) exactly_one
  = if exactly_one then parse_place place
    else VList <$> mapM_result parse_place (place :: places).
Proof.
  intros Hres. unfold parse_doc, get. rewrite Hres. run_result. by destruct exactly_one.
Qed.

(** C2.  When the results array is empty, [parse_json] raises the
    error the status table gives for the status field (or for its
    absence), whatever [exactly_one] is. *)
Theorem parse_json_empty_results (pg : page response) (exactly_one : bool)
    (self : GoogleV3) (w : world) (text : string) (m : gmap string pyval) :
  page_text pg = Ok text →
  json_loads text = Ok (VDict m) →
  m !! "results" = Some (VList []) →
  outcome (parse_json pg exactly_one self w) = Raise (status_error (m !! "status")).
Proof.
  intros Htext Hdoc Hres. rewrite (parse_json_decoded _ _ _ _ _ _ Htext Hdoc).
  unfold outcome, parse_doc, get. simpl fst. rewrite Hres. run_result.
  simpl truthy. cbv beta iota. simpl negb. cbv beta iota.
  by rewrite check_status_error.
Qed.

(** C6.  When the results array is not empty, [parse_json] returns the
    tuple of the first result if [exactly_one] is set, and otherwise
    the list of the tuples of all results, in the order of the array. *)
Theorem parse_json_results (pg : page response) (self : GoogleV3) (w : world)
    (text : string) (m : gmap string pyval) (place : pyval) (places : list pyval) :
  page_text pg = Ok text →
  json_loads text = Ok (VDict m) →
  m !! "results" = Some (VList (place :: places)) →
  (∀ t, tuple_of place t → outcome (parse_json pg true self w) = Ok t)
  ∧ (∀ ts, Forall2 tuple_of (place :: places) ts →
       outcome (parse_json pg false self w) = Ok (VList ts)).
Proof.
  intros Htext Hdoc Hres. split.
  - intros t Ht. rewrite (parse_json_decoded _ _ _ _ _ _ Htext Hdoc).
    unfold outcome. simpl fst. rewrite (parse_doc_results _ _ _ _ Hres).
    by apply parse_place_ok.
  - intros ts Hts. rewrite (parse_json_decoded _ _ _ _ _ _ Htext Hdoc).
    unfold outcome. simpl fst. rewrite (parse_doc_results _ _ _ _ Hres).
    rewrite (mapM_result_ok parse_place (place :: places) ts); [done|].
    eapply Forall2_impl; [exact Hts|]. intros p t. apply parse_place_ok.
Qed.

(** C7.  A result that lacks [geometry.location.lat] or
    [geometry.location.lng] makes [parse_place] raise, and with it
    [parse_json] whenever that result is among those it parses; no
    tuple is made for it. *)
Theorem missing_coordinate_is_fatal (pg : page response) (exactly_one : bool)
    (self : GoogleV3) (w : world) (text : string) (m : gmap string pyval)
    (places : list pyval) (place : pyval) :
  page_text pg = Ok text →
  json_loads text = Ok (VDict m) →
  m !! "results" = Some (VList places) →
  place ∈ parsed_results places exactly_one →
  lacks_coordinate place →
  raises (parse_place place)
  ∧ (∀ t, ¬ tuple_of place t)
  ∧ raises (outcome (parse_json pg exactly_one self w)).
Proof.
  intros Htext Hdoc Hres Hin Hlack.
  pose proof (parse_place_raises place Hlack) as Hraise.
  split; [done|]. split.
  { intros t Ht. apply parse_place_ok in Ht. destruct Hraise. congruence. }
  rewrite (parse_json_decoded _ _ _ _ _ _ Htext Hdoc). unfold outcome. simpl fst.
  destruct places as [|first rest].
  { unfold parsed_results in Hin. destruct exactly_one; by apply elem_of_nil in Hin. }
  rewrite (parse_doc_results _ _ _ _ Hres).
  destruct exactly_one; simpl in Hin.
  - apply list_elem_of_singleton in Hin as ->. done.
  - destruct (mapM_result_raises parse_place _ _ Hin Hraise) as [e He].
    rewrite He. by exists e.
Qed.

(** C9.  A result that has both coordinates but no [formatted_address]
    parses to a tuple whose address is [None]: [parse_json] returns it
    when it is the first result and [exactly_one] is set, and lists it
    in its place otherwise. *)
Theorem missing_address_is_none (pg : page response) (self : GoogleV3) (w : world)
    (text : string) (m : gmap string pyval) (places : list pyval)
    (i : nat) (place lat lng : pyval) :
  page_text pg = Ok text →
  json_loads text = Ok (VDict m) →
  m !! "results" = Some (VList places) →
  places !! i = Some place →
  member place "formatted_address" = None →
  coordinate place "lat" = Some lat →
  coordinate place "lng" = Some lng →
  let t := VTuple [VNone; VTuple [lat; lng]] in
  parse_place place = Ok t
  ∧ (i = 0 → outcome (parse_json pg true self w) = Ok t)
  ∧ (∀ ts, Forall2 tuple_of places ts →
       outcome (parse_json pg false self w) = Ok (VList ts) ∧ ts !! i = Some t).
Proof.
  intros Htext Hdoc Hres Hi Haddr Hlat Hlng t.
  assert (Ht : tuple_of place t).
  { exists lat, lng. by rewrite Haddr. }
  destruct places as [|first rest]; [done|].
  split; [by apply parse_place_ok|]. split.
  - intros ->. injection Hi as ->.
    rewrite (parse_json_decoded _ _ _ _ _ _ Htext Hdoc). unfold outcome. simpl fst.
    rewrite (parse_doc_results _ _ _ _ Hres). by apply parse_place_ok.
  - intros ts Hts. split.
    + rewrite (parse_json_decoded _ _ _ _ _ _ Htext Hdoc). unfold outcome. simpl fst.
      rewrite (parse_doc_results _ _ _ _ Hres).
      rewrite (mapM_result_ok parse_place (first :: rest) ts); [done|].
      eapply Forall2_impl; [exact Hts|]. intros p t'. apply parse_place_ok.
    + destruct (Forall2_lookup_l _ _ _ _ _ Hts Hi) as (t' & Hti & Ht').
      rewrite Hti. f_equal.
      destruct Ht' as (lat' & lng' & Hlat' & Hlng' & ->). rewrite Haddr. subst t. simpl.
      congruence.
Qed.


(** *** The instance across calls *)

Lemma with_doc_same (self : GoogleV3) : with_doc (doc self) self = self.
Proof. by destruct self. Qed.

Lemma writes_only_doc_lift {A} (r : result A) : writes_only_doc (world := world) (lift r).
Proof. intros self w. exists (doc self). simpl. by rewrite with_doc_same. Qed.

Lemma writes_only_doc_this : writes_only_doc (world := world) this.
Proof. intros self w. exists (doc self). simpl. by rewrite with_doc_same. Qed.

Lemma writes_only_doc_set_doc (d : pyval) : writes_only_doc (world := world) (set_doc d).
Proof. intros self w. by exists d. Qed.

Lemma writes_only_doc_fetch (url : string) : writes_only_doc (fetch url).
Proof.
  intros self w. exists (doc self). unfold fetch.
  destruct (urlopen url w) as [r w']. simpl. by rewrite with_doc_same.
Qed.

Lemma writes_only_doc_bind {A B} (m : M world A) (f : A → M world B) :
  writes_only_doc m → (∀ a, writes_only_doc (f a)) → writes_only_doc (m ≫= f).
Proof.
  intros Hm Hf self w. unfold mbind, M_bind.
  destruct (Hm self w) as [d Hd].
  destruct (m self w) as [[[a|e] self1] w1]; simpl in Hd; subst self1.
  - destruct (Hf a (with_doc d self) w1) as [d' Hd']. exists d'. by rewrite Hd'.
  - by exists d.
Qed.

#[local] Hint Resolve writes_only_doc_lift writes_only_doc_this writes_only_doc_set_doc
  writes_only_doc_fetch : frame.

Ltac frame := repeat (apply writes_only_doc_bind; [|intros ?]); auto with frame.

Lemma writes_only_doc_parse_json (pg : page response) (exactly_one : bool) :
  writes_only_doc (parse_json pg exactly_one).
Proof. unfold parse_json. frame. Qed.

Lemma writes_only_doc_geocode_url (url : string) (exactly_one : bool) :
  writes_only_doc (geocode_url url exactly_one).
Proof. unfold geocode_url. frame. Qed.

Lemma writes_only_doc_perform (c : @call response) : writes_only_doc (perform c).
Proof.
  destruct c; simpl.
  - unfold geocode. frame.
  - unfold reverse. frame.
  - apply writes_only_doc_parse_json.
Qed.

(** C8.  Over any sequence of [geocode], [reverse] and [parse_json]
    calls the configuration stays what construction made it; a call
    changes nothing but [doc]; and [parse_json], called directly or
    through [geocode_url], leaves in [doc] the document it has just
    decoded (and leaves [doc] alone when there is none to decode). *)
Theorem calls_change_only_doc :
  (∀ (cs : list (@call response)) self w,
     config (perform_all cs self w).1 = config self)
  ∧ (∀ (c : @call response) self w,
       ∃ d, instance_after (perform c self w) = with_doc d self)
  ∧ (∀ pg exactly_one self w text d,
       page_text pg = Ok text → json_loads text = Ok d →
       instance_after (parse_json pg exactly_one self w) = with_doc d self)
  ∧ (∀ pg exactly_one self w,
       raises (page_text pg ≫= json_loads) →
       instance_after (parse_json pg exactly_one self w) = self)
  ∧ (∀ url exactly_one self w r w' text d,
       urlopen url w = (Ok r, w') → decode_page r = Ok text → json_loads text = Ok d →
       instance_after (geocode_url url exactly_one self w) = with_doc d self).
Proof.
  split; [|split; [|split; [|split]]].
  - intros cs. induction cs as [|c cs IH]; intros self w; [done|].
    simpl. destruct (writes_only_doc_perform c self w) as [d Hd].
    destruct (perform c self w) as [[r self1] w1]. simpl in Hd. subst self1.
    by rewrite IH.
  - intros c self w. apply writes_only_doc_perform.
  - intros pg exactly_one self w text d Htext Hdoc.
    by rewrite (parse_json_decoded _ _ _ _ _ _ Htext Hdoc).
  - intros pg exactly_one self w [e He]. by rewrite parse_json_run, He.
  - intros url exactly_one self w r w' text d Hopen Htext Hdoc.
    unfold geocode_url, mbind at 1, M_bind, fetch. rewrite Hopen.
    by rewrite (parse_json_decoded (Raw r) _ _ _ text d Htext Hdoc).
Qed.

End Properties.

(** ** The properties at concrete requests

    Each lemma below applies one of the theorems above to the stub
    transport and the reference models of the standard library. *)

Section Witnesses.

#[local] Existing Instance Stub.stub.

(** A signed request, with the key of Google's documentation. *)
Lemma get_signed_url_witness :
  _get_signed_url Stub.signing Stub.new_york
  = (<["client" := VStr "clientID"]> Stub.new_york,
     Ok ("https://maps.googleapis.com/maps/api/geocode/json?"
         +:+ "sensor=false&client=clientID&address=New+York"
         +:+ "&signature=2be9cMDQ5i3iMoN9XXFecqIkDOA=")).
Proof.
  etransitivity.
  - apply (get_signed_url_spec Stub.signing Stub.new_york "clientID"
             "vNIXE0xscrmjlyV-12Nj_BvUPaw="
             "sensor=false&client=clientID&address=New+York"
             (Std.string_of (default [] (Std.b64decode
                (String.list_ascii_of_string "vNIXE0xscrmjlyV-12Nj_BvUPaw=")))));
      vm_compute; reflexivity.
  - vm_compute. reflexivity.
Defined.

Lemma init_raises_iff_witness :
  raises (__init__ "maps.googleapis.com" "https" (Some "clientID") None)
  ∧ ¬ raises (__init__ "maps.googleapis.com" "https" (Some "clientID") (Some "c2VjcmV0")).
Proof.
  split.
  - apply (proj1 (init_raises_iff "maps.googleapis.com" "https" (Some "clientID") None)).
    right. left. split.
    + by exists "clientID".
    + by intros (s & ? & _).
  - intros Hr.
    apply (proj1 (init_raises_iff "maps.googleapis.com" "https"
                    (Some "clientID") (Some "c2VjcmV0"))) in Hr.
    destruct Hr as [[_ Hp]|[[_ Hk]|[_ Hc]]].
    + by apply Hp.
    + apply Hk. by exists "c2VjcmV0".
    + apply Hc. by exists "clientID".
Defined.

Lemma init_empty_credentials_witness :
  __init__ "maps.googleapis.com" "https" (Some "") (Some "") = Ok Stub.plain.
Proof.
  apply (init_empty_credentials (lib := Stub.stub) "maps.googleapis.com" "https").
  by right.
Defined.

Lemma parse_json_empty_results_witness :
  outcome (parse_json (Text "zero_results.json") true Stub.plain []) = Raise GQueryError
  ∧ outcome (parse_json (Text "over_query_limit.json") false Stub.plain [])
    = Raise GTooManyQueriesError.
Proof.
  split.
  - etransitivity.
    + by apply (parse_json_empty_results (Text "zero_results.json") true Stub.plain []
                  "zero_results.json" (Stub.fields_of "ZERO_RESULTS" [])).
    + reflexivity.
  - etransitivity.
    + by apply (parse_json_empty_results (Text "over_query_limit.json") false Stub.plain []
                  "over_query_limit.json" (Stub.fields_of "OVER_QUERY_LIMIT" [])).
    + reflexivity.
Defined.

Lemma parse_json_results_witness :
  outcome (parse_json (Text "two_results.json") true Stub.plain [])
  = Ok (Stub.tuple "277 Bedford Avenue, Brooklyn, NY 11211, USA"
          (VFloat 40.714232) (VFloat (-73.9612889)))
  ∧ outcome (parse_json (Text "two_results.json") false Stub.plain [])
    = Ok (VList [Stub.tuple "277 Bedford Avenue, Brooklyn, NY 11211, USA"
                   (VFloat 40.714232) (VFloat (-73.9612889));
                 Stub.tuple "Williamsburg, Brooklyn, NY, USA"
                   (VFloat 40.7064461) (VFloat (-73.9536163))]).
Proof.
  destruct (parse_json_results (lib := Stub.stub) (Text "two_results.json") Stub.plain []
              "two_results.json" (Stub.fields_of "OK" [Stub.bedford; Stub.williamsburg])
              Stub.bedford [Stub.williamsburg]
              eq_refl eq_refl eq_refl) as [Hone Hall].
  split.
  - apply Hone. by eexists _, _.
  - apply Hall. repeat constructor; by eexists _, _.
Defined.

Lemma missing_coordinate_is_fatal_witness :
  raises (parse_place Stub.half)
  ∧ raises (outcome (parse_json (Text "half.json") false Stub.plain [])).
Proof.
  destruct (missing_coordinate_is_fatal (lib := Stub.stub) (Text "half.json") false Stub.plain []
              "half.json" (Stub.fields_of "OK" [Stub.amphitheatre; Stub.half])
              [Stub.amphitheatre; Stub.half] Stub.half
              eq_refl eq_refl eq_refl) as (Hplace & _ & Hjson).
  - apply list_elem_of_further, list_elem_of_here.
  - by right.
  - by split.
Defined.

Lemma missing_address_is_none_witness :
  parse_place Stub.unnamed = Ok (VTuple [VNone; VTuple [VFloat 1.5; VFloat 2.5]])
  ∧ outcome (parse_json (Text "unnamed.json") true Stub.plain [])
    = Ok (VTuple [VNone; VTuple [VFloat 1.5; VFloat 2.5]])
  ∧ outcome (parse_json (Text "unnamed.json") false Stub.plain [])
    = Ok (VList [VTuple [VNone; VTuple [VFloat 1.5; VFloat 2.5]]]).
Proof.
  destruct (missing_address_is_none (lib := Stub.stub) (Text "unnamed.json") Stub.plain []
              "unnamed.json" (Stub.fields_of "OK" [Stub.unnamed])
              [Stub.unnamed] 0 Stub.unnamed (VFloat 1.5) (VFloat 2.5)
              eq_refl eq_refl eq_refl eq_refl eq_refl eq_refl eq_refl)
    as (Hplace & Hone & Hall).
  split; [exact Hplace|]. split; [by apply Hone|].
  apply Hall. repeat constructor. by eexists _, _.
Defined.

(** Three calls in a row on a signing instance: the first two fetch
    from the stub transport, the third is handed an unknown body. *)
Lemma calls_change_only_doc_witness :
  let calls :=
    [ Geocode (VStr "1600 Amphitheatre Parkway, Mountain View, CA")
        VNone VNone VNone false true;
      Reverse (ObjValue (VStr "40.714224,-73.961452")) VNone false false;
      ParseJson (Text "no such body") true ] in
  let served := ["one_result.json"; "two_results.json"] in
  config (perform_all calls Stub.signing served).1 = config Stub.signing
  ∧ instance_after (parse_json (Text "two_results.json") true Stub.signing [])
    = with_doc (Stub.response_of "OK" [Stub.bedford; Stub.williamsburg]) Stub.signing.
Proof.
  destruct (calls_change_only_doc (lib := Stub.stub)) as (Hconfig & _ & Hdoc & _).
  split.
  - apply Hconfig.
  - by apply (Hdoc (Text "two_results.json") true Stub.signing [] "two_results.json").
Defined.

End Witnesses.

(** ** Examples *)

Section Examples.

#[local] Existing Instance Stub.stub.

(** The reference models against published vectors: FIPS 180 and
    RFC 2202, RFC 4648, and the signature of Google's documentation. *)
Example sha1_abc :
  Std.hex (Std.sha1 (Std.bytes_of "abc")) = "a9993e364706816aba3e25717850c26c9cd0d89d".
Proof. vm_compute. reflexivity. Qed.

Example sha1_two_blocks :
  Std.hex (Std.sha1 (Std.bytes_of
    "abcdbcdecdefdefgefghfghighijhijkijkljklmklmnlmnomnopnopq"))
  = "84983e441c3bd26ebaae4aa1f95129e5e54670f1".
Proof. vm_compute. reflexivity. Qed.

Example hmac_hi_there :
  Std.hex (Std.hmac (repeat 11%Z 20) (Std.bytes_of "Hi There"))
  = "b617318655057264e28bc0b6fb378c8ef146be00".
Proof. vm_compute. reflexivity. Qed.

Example hmac_long_key :
  Std.hex (Std.hmac (repeat 170%Z 80)
    (Std.bytes_of "Test Using Larger Than Block-Size Key - Hash Key First"))
  = "aa4ae5e15272d00e95705637ce8a3b55ed402112".
Proof. vm_compute. reflexivity. Qed.

Example base64_padding :
  Std.urlsafe_b64encode "fooba" = "Zm9vYmE="
  ∧ Std.urlsafe_b64decode (VStr "Zm9vYg==") = Ok "foob"
  ∧ Std.urlsafe_b64decode (VStr "Zm9vY") = Raise TypeError.
Proof. repeat split. Qed.

Example documented_signature :
  (λ key, Std.urlsafe_b64encode
     (Std.hmac_sha1 key "/maps/api/geocode/json?address=New+York&sensor=false&client=clientID"))
    <$> Std.urlsafe_b64decode (VStr "vNIXE0xscrmjlyV-12Nj_BvUPaw=")
  = Ok "KrU1TzVQM7Ur0i8i7K3huiw3MsA=".
Proof. vm_compute. reflexivity. Qed.

Example quote_plus_address :
  Std.quote_plus "1600 Amphitheatre Parkway, Mountain View, CA"
  = "1600+Amphitheatre+Parkway%2C+Mountain+View%2C+CA".
Proof. reflexivity. Qed.

(** Both Google errors are caught as [GeocoderResultError]; neither
    is caught as the other. *)
Example google_errors_hierarchy :
  issubclass GQueryError GeocoderResultError = true
  ∧ issubclass GTooManyQueriesError GeocoderResultError = true
  ∧ issubclass GTooManyQueriesError GQueryError = false.
Proof. repeat split. Qed.

(** String methods. *)
Example strip_domain : strip "/" "//maps.google.co.uk/" = "maps.google.co.uk".
Proof. reflexivity. Qed.

Example strip_inner : strip "/" "a/b/" = "a/b".
Proof. reflexivity. Qed.

Example sensor_text : lower (str_bool false) = "false".
Proof. reflexivity. Qed.

Example join_one_argument :
  join "," [VList [VStr "40.7"; VStr "-73.9"]] = Ok (VStr "40.7,-73.9").
Proof. reflexivity. Qed.

Example join_two_arguments : join "," [VStr "40.7"; VStr "-73.9"] = Raise TypeError.
Proof. reflexivity. Qed.

Example format_missing_key : format "%(x)s" ∅ = Raise KeyError.
Proof. reflexivity. Qed.

(** The plain URL of an instance configured for [https]. *)
Example plain_url_of_https_instance :
  _get_url Stub.plain Stub.new_york
  = Ok "http://maps.googleapis.com/maps/api/geocode/json?sensor=false&address=New+York".
Proof. vm_compute. reflexivity. Qed.

(** [geocode] end to end against the stub transport. *)
Example geocode_amphitheatre :
  outcome (geocode (VStr "1600 Amphitheatre Parkway, Mountain View, CA")
             VNone VNone VNone false true Stub.plain ["one_result.json"])
  = Ok (Stub.tuple "1600 Amphitheatre Parkway, Mountain View, CA, USA"
          (VFloat 37.4224764) (VFloat (-122.0842499))).
Proof. vm_compute. reflexivity. Qed.

(** [reverse] with the coordinates as text returns both results in
    the order of the response. *)
Example reverse_text_point :
  outcome (reverse (ObjValue (VStr "40.714224,-73.961452")) VNone false false
             Stub.plain ["two_results.json"])
  = Ok (VList [Stub.tuple "277 Bedford Avenue, Brooklyn, NY 11211, USA"
                 (VFloat 40.714232) (VFloat (-73.9612889));
               Stub.tuple "Williamsburg, Brooklyn, NY, USA"
                 (VFloat 40.7064461) (VFloat (-73.9536163))]).
Proof. vm_compute. reflexivity. Qed.

(** [reverse] with the same coordinates as a pair or as a [Point]
    raises before any request is made: the transport still holds the
    body it was to serve. *)
Example reverse_pair_point :
  reverse (ObjValue (VTuple [VFloat 40.714224; VFloat (-73.961452)])) VNone false false
    Stub.plain ["two_results.json"]
  = (Raise TypeError, Stub.plain, ["two_results.json"]).
Proof. vm_compute. reflexivity. Qed.

Example reverse_structured_point :
  reverse (ObjPoint (mkPoint (VFloat 40.714224) (VFloat (-73.961452)) (VFloat 0)))
    VNone false false Stub.plain ["two_results.json"]
  = (Raise TypeError, Stub.plain, ["two_results.json"]).
Proof. vm_compute. reflexivity. Qed.

(** With [exactly_one] set only the first result is parsed: a later
    result without a coordinate goes unnoticed. *)
Example exactly_one_parses_first_only :
  outcome (parse_json (Text "half.json") true Stub.plain [])
  = Ok (Stub.tuple "1600 Amphitheatre Parkway, Mountain View, CA, USA"
          (VFloat 37.4224764) (VFloat (-122.0842499)))
  ∧ outcome (parse_json (Text "half.json") false Stub.plain []) = Raise KeyError.
Proof. split; vm_compute; reflexivity. Qed.

End Examples.

(** ** Further properties *)

(** *** Stripping *)

Lemma lstrip_not_begins (c : ascii) (s : string) : ¬ begins_with c (lstrip c s).
Proof.
  induction s as [|a s IH]; simpl.
  - by intros [rest ?].
  - destruct (Ascii.eqb_spec a c) as [->|Hne]; [done|].
    intros [rest [= ? _]]. done.
Qed.

Lemma rstrip_head (c a : ascii) (s r : string) :
  rstrip c s = String a r → ∃ s', s = String a s'.
Proof.
  destruct s as [|b s]; simpl; [done|].
  destruct (rstrip c s); [destruct (Ascii.eqb b c)|]; intros [= -> _]; by eexists.
Qed.

Lemma append_not_empty (s t : string) (c : ascii) : s +:+ String c t ≠ "".
Proof. by destruct s. Qed.

Lemma rstrip_not_ends (c : ascii) (s : string) : ¬ ends_with c (rstrip c s).
Proof.
  induction s as [|a s IH]; simpl.
  - intros [rest Hrest]. by apply (append_not_empty rest "" c).
  - destruct (rstrip c s) as [|b r] eqn:Hr.
    + destruct (Ascii.eqb_spec a c) as [->|Hne].
      * intros [rest Hrest]. by apply (append_not_empty rest "" c).
      * intros [[|b rest] Hrest]; simpl in Hrest.
        -- by injection Hrest.
        -- injection Hrest as _ Hrest. by apply (append_not_empty rest "" c).
    + intros [[|b' rest] Hrest]; simpl in Hrest; [done|].
      injection Hrest as _ Hrest. apply IH. by exists rest.
Qed.

Lemma lstrip_id (c : ascii) (s : string) : ¬ begins_with c s → lstrip c s = s.
Proof.
  destruct s as [|a s]; simpl; [done|]. intros Hno.
  destruct (Ascii.eqb_spec a c) as [->|Hne]; [|done].
  destruct Hno. by exists s.
Qed.

Lemma rstrip_id (c : ascii) (s : string) : ¬ ends_with c s → rstrip c s = s.
Proof.
  induction s as [|a s IH]; simpl; [done|]. intros Hno.
  rewrite IH.
  - destruct s as [|b s]; [|done].
    destruct (Ascii.eqb_spec a c) as [->|Hne]; [|done].
    destruct Hno. by exists "".
  - intros [rest ->]. apply Hno. by exists (String a rest).
Qed.

Lemma strip_clean (c : ascii) (s : string) :
  ¬ begins_with c (strip c s) ∧ ¬ ends_with c (strip c s).
Proof.
  unfold strip. split; [|apply rstrip_not_ends].
  intros [rest Hrest]. apply rstrip_head in Hrest as [s' Hs'].
  apply (lstrip_not_begins c s). by exists s'.
Qed.

Lemma strip_id (c : ascii) (s : string) :
  ¬ begins_with c s → ¬ ends_with c s → strip c s = s.
Proof. intros Hb He. unfold strip. rewrite (lstrip_id c s Hb). by apply rstrip_id. Qed.

(** *** Construction *)

Lemma init_ok (d p : string) (cid key : option string) :
  p = "http" ∨ p = "https" → truthy_opt cid = truthy_opt key →
  __init__ d p cid key
  = Ok (mkGoogleV3 (strip "/" d) p (VDict ∅) (truthy_opt cid)
          (if truthy_opt cid then cid else None) (if truthy_opt cid then key else None)).
Proof.
  intros Hp Heq. apply protocol_check in Hp. unfold __init__. rewrite Hp, <- Heq.
  by destruct (truthy_opt cid).
Qed.

(** X1.  The domain an instance stores neither begins nor ends with a
    slash; a domain that has none at either end is stored as given, and
    constructing again from the stored domain gives the same instance. *)
Theorem init_domain_stripped (d p : string) (cid key : option string) (self : GoogleV3) :
  __init__ d p cid key = Ok self →
  ¬ begins_with "/" (domain self)
  ∧ ¬ ends_with "/" (domain self)
  ∧ (¬ begins_with "/" d → ¬ ends_with "/" d → domain self = d)
  ∧ __init__ (domain self) p cid key = Ok self.
Proof.
  intros Hinit. apply init_ok_inv in Hinit as (Hp & Heq & ->). simpl.
  destruct (strip_clean "/" d) as [Hb He].
  split; [done|]. split; [done|]. split; [apply strip_id|].
  rewrite (init_ok _ _ _ _ Hp Heq). by rewrite (strip_id "/" (strip "/" d) Hb He).
Qed.

(** *** Status errors *)

Lemma check_status_raises (status : pyval) :
  _check_status status = Raise (status_error (Some status)).
Proof. exact (check_status_error (Some status)). Qed.

Lemma status_error_none : status_error None = status_error (Some VNone).
Proof. reflexivity. Qed.

(** X2.  Whatever the status, [_check_status] raises an error that
    [except GeocoderResultError] catches.  [except GQueryError] catches
    it exactly for [ZERO_RESULTS], [REQUEST_DENIED] and
    [INVALID_REQUEST]: the error for [OVER_QUERY_LIMIT] is not a
    [GQueryError]. *)
Theorem status_errors_hierarchy (status : pyval) :
  ∃ e, _check_status status = Raise e
       ∧ issubclass e GeocoderResultError = true
       ∧ (issubclass e GQueryError = true ↔
            status = VStr "ZERO_RESULTS" ∨ status = VStr "REQUEST_DENIED"
            ∨ status = VStr "INVALID_REQUEST")
       ∧ (issubclass e GTooManyQueriesError = true ↔ status = VStr "OVER_QUERY_LIMIT").
Proof.
  exists (status_error (Some status)). split; [apply check_status_raises|].
  unfold status_error.
  destruct status as [| | | |s| | |];
    try (repeat split; try done; intros H; by repeat destruct H as [H|H]).
  destruct (decide (s = "ZERO_RESULTS" ∨ s = "REQUEST_DENIED" ∨ s = "INVALID_REQUEST"))
    as [Hs|Hs].
  - split; [done|]. split.
    + split; [|done]. intros _. destruct Hs as [-> | [-> | ->]]; auto.
    + split; [done|]. intros [= ->]. by destruct Hs as [? | [? | ?]].
  - destruct (decide (s = "OVER_QUERY_LIMIT")) as [-> | Hl].
    + split; [done|]. split; [|done]. split; [done|].
      intros H; by repeat destruct H as [H|H].
    + split; [done|]. split.
      * split; [done|]. intros H. destruct Hs.
        destruct H as [[= ->] | [[= ->] | [= ->]]]; auto.
      * split; [done|]. by intros [= ->].
Qed.

(** *** Traversals, the other way round *)

Lemma mapM_result_ok_inv {A B} (f : A → result B) (l : list A) (l' : list B) :
  mapM_result f l = Ok l' → Forall2 (λ x y, f x = Ok y) l l'.
Proof.
  revert l'. induction l as [|x l IH]; intros l'; simpl.
  - intros [= <-]. constructor.
  - destruct (f x) as [y|e] eqn:Hx; run_result; [|done].
    destruct (mapM_result f l) as [ys|e]; [|done].
    intros [= <-]. constructor; [done|]. by apply IH.
Qed.

Lemma mapM_result_head_raises {A B} (f : A → result B) (x : A) (l : list A) (e : exn) :
  f x = Raise e → mapM_result f (x :: l) = Raise e.
Proof. intros Hx. simpl. by rewrite Hx. Qed.

Lemma parse_place_not_object (v : pyval) :
  (∀ m, v ≠ VDict m) → parse_place v = Raise AttributeError.
Proof. intros Hv. destruct v; try done. by destruct (Hv d). Qed.


(** *** What [parse_doc] needs to return *)

Lemma seq_index_first {A} (l : list A) (x : A) :
  seq_index l 0 = Ok x → ∃ l', l = x :: l'.
Proof. destruct l as [|y l]; [done|]. intros [= ->]. by exists l. Qed.

Lemma chars_cons (c : ascii) (s : string) : chars (String c s) = VStr (String c "") :: chars s.
Proof. reflexivity. Qed.

Lemma parse_doc_ok_inv (d : pyval) (exactly_one : bool) (v : pyval) :
  parse_doc d exactly_one = Ok v →
  ∃ m place places,
    d = VDict m
    ∧ (m !! "results" = Some (VList (place :: places))
       ∨ m !! "results" = Some (VTuple (place :: places)))
    ∧ if exactly_one then tuple_of place v
      else ∃ ts, v = VList ts ∧ Forall2 tuple_of (place :: places) ts.
Proof.
  unfold parse_doc, get. destruct d as [| | | | | | |m]; try discriminate.
  run_result. destruct (m !! "results") as [r|] eqn:Hres;
    cbn [default from_option id];
    [|cbn [truthy length Nat.eqb negb]; rewrite check_status_raises; discriminate].
  destruct (truthy r) eqn:Htruthy; cbn [negb];
    [|rewrite check_status_raises; discriminate].
  destruct exactly_one.
  - destruct r as [| | | |s|l|l|d']; try discriminate.
    + destruct s as [|c s]; [discriminate|]. cbn [getitem]. rewrite chars_cons. discriminate.
    + cbn [getitem]. destruct l as [|place places]; [discriminate|].
      intros Hplace. exists m, place, places. split; [done|]. split; [by left|].
      by apply parse_place_ok.
    + cbn [getitem]. destruct l as [|place places]; [discriminate|].
      intros Hplace. exists m, place, places. split; [done|]. split; [by right|].
      by apply parse_place_ok.
  - destruct r as [| | | |s|l|l|d']; try discriminate.
    + destruct s as [|c s]; [discriminate|]. cbn [iter]. rewrite chars_cons.
      by rewrite (mapM_result_head_raises parse_place _ _ AttributeError).
    + cbn [iter]. destruct l as [|place places]; [discriminate|].
      destruct (mapM_result parse_place (place :: places)) as [ts|e] eqn:Hts; [|discriminate].
      intros [= <-]. exists m, place, places. split; [done|]. split; [by left|].
      exists ts. split; [done|]. apply mapM_result_ok_inv in Hts.
      eapply Forall2_impl; [exact Hts|]. intros p t. apply parse_place_ok.
    + cbn [iter]. destruct l as [|place places]; [discriminate|].
      destruct (mapM_result parse_place (place :: places)) as [ts|e] eqn:Hts; [|discriminate].
      intros [= <-]. exists m, place, places. split; [done|]. split; [by right|].
      exists ts. split; [done|]. apply mapM_result_ok_inv in Hts.
      eapply Forall2_impl; [exact Hts|]. intros p t. apply parse_place_ok.
    + cbn [iter]. destruct (map_to_list d') as [|[k x] kvs] eqn:Hkvs.
      * apply map_to_list_empty_iff in Hkvs as ->. discriminate.
      * by rewrite fmap_cons, fmap_cons,
          (mapM_result_head_raises parse_place _ _ AttributeError).
Qed.

(** *** Coercion of the point *)

Lemma coerce_sequence_raises (v : pyval) :
  is_sequence v = true →
  ∃ e, _coerce_point_to_string (ObjValue v) = Raise e ∧ (e = TypeError ∨ e = IndexError).
Proof.
  destruct v as [| | | | |l|l|]; try done; intros _.
  - destruct l as [|a [|b l]]; [by exists IndexError; auto..|]. exists TypeError. auto.
  - destruct l as [|a [|b l]]; [by exists IndexError; auto..|]. exists TypeError. auto.
Qed.

Lemma coerce_other_returns (v : pyval) :
  is_sequence v = false → _coerce_point_to_string (ObjValue v) = Ok v.
Proof. by destruct v. Qed.

Lemma sensor_flag_lower (sensor : bool) : VStr (lower (str_bool sensor)) = sensor_flag sensor.
Proof. by destruct sensor. Qed.

(** *** The errors of a malformed result *)

Lemma getitem_str_error (v : pyval) (k : string) (e : exn) :
  getitem v (VStr k) = Raise e → e = KeyError ∨ e = TypeError.
Proof.
  destruct v as [| | | | |l|l|d]; cbn [getitem]; try (intros [= <-]; auto).
  destruct (d !! k); [done|]. intros [= <-]. auto.
Qed.

Lemma parse_place_error (place : pyval) (e : exn) :
  parse_place place = Raise e →
  builtin_lookup_error e ∧ (e = AttributeError ↔ ∀ m, place ≠ VDict m).
Proof.
  unfold builtin_lookup_error.
  destruct place as [| | | | | | |d];
    try (intros [= <-]; split; [auto|]; split; [done|auto]).
  unfold parse_place, get. run_result. intros Hraise.
  assert (He : e = KeyError ∨ e = TypeError).
  { repeat match type of Hraise with
           | match ?g with _ => _ end = _ =>
               let Hg := fresh "Hg" in
               destruct g eqn:Hg; [|injection Hraise as ->; by eapply getitem_str_error]
           end.
    done. }
  split; [tauto|]. split.
  - intros ->. by destruct He.
  - intros Hnot. by destruct (Hnot d).
Qed.

Lemma mapM_result_raise_inv {A B} (f : A → result B) (l : list A) (e : exn) :
  mapM_result f l = Raise e → ∃ x, x ∈ l ∧ f x = Raise e.
Proof.
  induction l as [|x l IH]; simpl; [done|].
  destruct (f x) as [y|e1] eqn:Hx; run_result.
  - destruct (mapM_result f l) as [ys|e2]; [done|]. intros [= ->].
    destruct IH as (x' & Hin & Hx'); [done|]. exists x'. split; [by right|done].
  - intros [= ->]. exists x. split; [by left|done].
Qed.

Lemma status_error_is_geocoder_error (status : option pyval) :
  issubclass (status_error status) GeocoderResultError = true.
Proof.
  unfold status_error. destruct status as [[| | | |s| | |]|]; try done.
  by repeat case_decide.
Qed.

Lemma parse_doc_truthy_error (m : gmap string pyval) (r : pyval) (exactly_one : bool)
    (e : exn) :
  m !! "results" = Some r → truthy r = true →
  parse_doc (VDict m) exactly_one = Raise e → builtin_lookup_error e.
Proof.
  intros Hres Htruthy. unfold parse_doc, get. rewrite Hres. run_result.
  cbn [default from_option id]. rewrite Htruthy. cbn [negb].
  destruct exactly_one.
  - destruct r as [| | | |s|l|l|d']; cbn [getitem];
      try (intros [= <-]; unfold builtin_lookup_error; auto).
    + destruct s as [|c s]; [done|]. rewrite chars_cons. intros [= <-]. by left.
    + destruct l as [|place places]; [done|]. cbn [seq_index]. intros Hp.
      by apply (parse_place_error place).
    + destruct l as [|place places]; [done|]. intros Hp.
      by apply (parse_place_error place).
  - destruct r as [| | | |s|l|l|d']; cbn [iter];
      try (intros [= <-]; unfold builtin_lookup_error; auto).
    + destruct s as [|c s]; [done|]. rewrite chars_cons.
      rewrite (mapM_result_head_raises parse_place _ _ AttributeError); [|done].
      intros [= <-]. by left.
    + destruct (mapM_result parse_place l) as [ts|e1] eqn:Hts; [done|]. intros [= ->].
      apply mapM_result_raise_inv in Hts as (x & _ & Hx). by apply (parse_place_error x).
    + destruct (mapM_result parse_place l) as [ts|e1] eqn:Hts; [done|]. intros [= ->].
      apply mapM_result_raise_inv in Hts as (x & _ & Hx). by apply (parse_place_error x).
    + destruct (mapM_result parse_place (VStr <$> (map_to_list d').*1)) as [ts|e1] eqn:Hts;
        [done|]. intros [= ->].
      apply mapM_result_raise_inv in Hts as (x & _ & Hx). by apply (parse_place_error x).
Qed.
Section Further.

Context {response world : Type} {lib : Collaborators response world}.

(** *** Construction and calls *)

Lemma perform_all_config (cs : list (@call response)) (self : GoogleV3) (w : world) :
  config (perform_all cs self w).1 = config self.
Proof.
  revert self w. induction cs as [|c cs IH]; intros self w; [done|].
  simpl. destruct (writes_only_doc_perform c self w) as [d Hd].
  destruct (perform c self w) as [[r self1] w1]. simpl in Hd. subst self1.
  by rewrite IH.
Qed.

(** X3.  From construction on and across any sequence of calls, an
    instance is in premier mode exactly when both credentials were
    supplied; it then holds them as given and signs its requests, and
    otherwise holds none and builds plain URLs.  Its protocol stays one
    of [http] and [https]. *)
Theorem credentials_invariant (d p : string) (cid key : option string)
    (self : GoogleV3) (cs : list (@call response)) (w : world) :
  __init__ d p cid key = Ok self →
  let self' := (perform_all cs self w).1 in
  (protocol self' = "http" ∨ protocol self' = "https")
  ∧ (supplied cid ∧ supplied key →
       premier self' = true ∧ client_id self' = cid ∧ secret_key self' = key
       ∧ ∀ params, request_url self' params = (_get_signed_url self' params).2)
  ∧ (¬ (supplied cid ∧ supplied key) →
       premier self' = false ∧ client_id self' = None ∧ secret_key self' = None
       ∧ ∀ params, request_url self' params = _get_url self' params).
Proof.
  intros Hinit self'.
  pose proof (perform_all_config cs self w) as Hconfig. fold self' in Hconfig.
  unfold config in Hconfig. injection Hconfig as Hd Hp Hpr Hc Hk.
  apply init_ok_inv in Hinit as (Hproto & Heq & ->).
  simpl in Hd, Hp, Hpr, Hc, Hk.
  unfold request_url. rewrite Hp, Hpr, Hc, Hk. split; [done|].
  rewrite <- !truthy_opt_supplied, <- Heq.
  destruct (truthy_opt cid); (split; [intros [Hs _]|intros Hs]).
  - by repeat split.
  - by destruct Hs.
  - done.
  - by repeat split.
Qed.

(** *** Parsing *)

(** X4.  A response without a [results] key, or whose [results] is
    null, false, zero, empty text or an empty object, is treated as one
    with an empty array: [parse_json] raises the error of its status. *)
Theorem parse_json_no_results (pg : page response) (exactly_one : bool)
    (self : GoogleV3) (w : world) (text : string) (m : gmap string pyval) :
  page_text pg = Ok text →
  json_loads text = Ok (VDict m) →
  m !! "results" = None ∨ (∃ v, m !! "results" = Some v ∧ truthy v = false) →
  outcome (parse_json pg exactly_one self w) = Raise (status_error (m !! "status")).
Proof.
  intros Htext Hdoc Hres. rewrite (parse_json_decoded _ _ _ _ _ _ Htext Hdoc).
  unfold outcome, parse_doc, get. simpl fst. run_result.
  assert (Hfalsy : truthy (default (VList []) (m !! "results")) = false).
  { destruct Hres as [-> | (v & -> & Hv)]; [done|exact Hv]. }
  rewrite Hfalsy. simpl negb. cbv beta iota. by rewrite check_status_error.
Qed.

(** X5.  A document that is not an object (an array, text, a number,
    null) makes [parse_json] raise [AttributeError]; the document has
    replaced [doc] all the same. *)
Theorem parse_json_not_object (pg : page response) (exactly_one : bool)
    (self : GoogleV3) (w : world) (text : string) (d : pyval) :
  page_text pg = Ok text →
  json_loads text = Ok d →
  (∀ m, d ≠ VDict m) →
  parse_json pg exactly_one self w = (Raise AttributeError, with_doc d self, w).
Proof.
  intros Htext Hdoc Hd. rewrite (parse_json_decoded _ _ _ _ _ _ Htext Hdoc).
  do 2 f_equal. destruct d; try done. by destruct (Hd d).
Qed.

(** X6.  With [exactly_one] set, the results after the first have no
    part in what [parse_json] returns or raises. *)
Theorem exactly_one_ignores_rest (pg pg' : page response) (self self' : GoogleV3)
    (w w' : world) (text text' : string) (m m' : gmap string pyval)
    (place : pyval) (places places' : list pyval) :
  page_text pg = Ok text → json_loads text = Ok (VDict m) →
  page_text pg' = Ok text' → json_loads text' = Ok (VDict m') →
  m !! "results" = Some (VList (place :: places)) →
  m' !! "results" = Some (VList (place :: places')) →
  outcome (parse_json pg true self w) = outcome (parse_json pg' true self' w').
Proof.
  intros Htext Hdoc Htext' Hdoc' Hres Hres'.
  rewrite (parse_json_decoded _ _ _ _ _ _ Htext Hdoc).
  rewrite (parse_json_decoded _ _ _ _ _ _ Htext' Hdoc').
  unfold outcome. simpl fst.
  by rewrite (parse_doc_results _ _ _ _ Hres), (parse_doc_results _ _ _ _ Hres').
Qed.


(** X7.  [parse_json] returns only tuples, never [None]: when it
    returns, the document it has stored in [doc] is an object whose
    [results] is a non-empty array, and the value is the tuple of the
    first result if [exactly_one] is set, and otherwise a list with the
    tuple of each result, in order. *)
Theorem parse_json_returns_inv (pg : page response) (exactly_one : bool)
    (self : GoogleV3) (w : world) (v : pyval) :
  outcome (parse_json pg exactly_one self w) = Ok v →
  v ≠ VNone
  ∧ ∃ m place places,
      doc (instance_after (parse_json pg exactly_one self w)) = VDict m
      ∧ (m !! "results" = Some (VList (place :: places))
         ∨ m !! "results" = Some (VTuple (place :: places)))
      ∧ if exactly_one then tuple_of place v
        else ∃ ts, v = VList ts ∧ Forall2 tuple_of (place :: places) ts.
Proof.
  rewrite parse_json_run. destruct (page_text pg ≫= json_loads) as [d|e]; [|done].
  unfold outcome, instance_after. cbn [fst snd with_doc doc]. intros Hdoc.
  apply parse_doc_ok_inv in Hdoc as (m & place & places & -> & Hres & Hv).
  split.
  - destruct exactly_one.
    + by destruct Hv as (lat & lng & _ & _ & ->).
    + by destruct Hv as (ts & -> & _).
  - by exists m, place, places.
Qed.

(** *** Running a method step by step *)

Lemma run_lift {A B} (r : result A) (f : A → M world B) (self : GoogleV3) (w : world) :
  (lift r ≫= f) self w
  = match r with
    | Ok a => f a self w
    | Raise e => (Raise e, self, w)
    end.
Proof. unfold mbind, M_bind, lift. by destruct r. Qed.

Lemma run_this {B} (f : GoogleV3 → M world B) (self : GoogleV3) (w : world) :
  (this ≫= f) self w = f self self w.
Proof. reflexivity. Qed.

Lemma geocode_url_run (url : string) (exactly_one : bool) (self : GoogleV3) (w : world) :
  geocode_url url exactly_one self w
  = match urlopen url w with
    | (Ok r, w') => parse_json (Raw r) exactly_one self w'
    | (Raise e, w') => (Raise e, self, w')
    end.
Proof.
  unfold geocode_url, mbind, M_bind, fetch.
  by destruct (urlopen url w) as [[r|e] w'].
Qed.

Lemma parse_json_world (pg : page response) (exactly_one : bool) (self : GoogleV3) (w : world) :
  world_after (parse_json pg exactly_one self w) = w.
Proof. rewrite parse_json_run. by destruct (page_text pg ≫= json_loads). Qed.

Lemma geocode_url_world (url : string) (exactly_one : bool) (self : GoogleV3) (w : world) :
  world_after (geocode_url url exactly_one self w) = (urlopen url w).2.
Proof.
  rewrite geocode_url_run. destruct (urlopen url w) as [[r|e] w']; [|done].
  apply parse_json_world.
Qed.

(** X8.  [geocode_url] passes on, unchanged, what the transport, the
    decoder or the JSON parser raises, and then leaves the instance,
    [doc] included, as it was. *)
Theorem geocode_url_propagates (url : string) (exactly_one : bool) (self : GoogleV3)
    (w : world) (e : exn) :
  (∀ w', urlopen url w = (Raise e, w') →
         geocode_url url exactly_one self w = (Raise e, self, w'))
  ∧ (∀ r w', urlopen url w = (Ok r, w') → decode_page r = Raise e →
             geocode_url url exactly_one self w = (Raise e, self, w'))
  ∧ (∀ r w' text, urlopen url w = (Ok r, w') → decode_page r = Ok text →
                  json_loads text = Raise e →
                  geocode_url url exactly_one self w = (Raise e, self, w')).
Proof.
  repeat split.
  - intros w' Hopen. by rewrite geocode_url_run, Hopen.
  - intros r w' Hopen Hdecode. rewrite geocode_url_run, Hopen, parse_json_run.
    cbn [page_text]. by rewrite Hdecode.
  - intros r w' text Hopen Hdecode Hloads. rewrite geocode_url_run, Hopen, parse_json_run.
    cbn [page_text]. rewrite Hdecode. run_result. by rewrite Hloads.
Qed.

(** *** Requests *)

(** X9.  [reverse] called with a [Point], a list or a tuple raises
    [TypeError] (or [IndexError], for fewer than two coordinates)
    without a request being made: instance and world are untouched. *)
Theorem reverse_sequence_never_fetches (point : pyobj) (language : pyval)
    (sensor exactly_one : bool) (self : GoogleV3) (w : world) :
  (∃ p, point = ObjPoint p) ∨ (∃ v, point = ObjValue v ∧ is_sequence v = true) →
  ∃ e, reverse point language sensor exactly_one self w = (Raise e, self, w)
       ∧ (e = TypeError ∨ e = IndexError).
Proof.
  intros Hpoint.
  assert (∃ e, _coerce_point_to_string point = Raise e ∧ (e = TypeError ∨ e = IndexError))
    as (e & He & Hkind).
  { destruct Hpoint as [[p ->] | (v & -> & Hv)].
    - exists TypeError. auto.
    - by apply coerce_sequence_raises. }
  exists e. split; [|done]. unfold reverse. by rewrite run_lift, He.
Qed.

(** X10.  For any other point, [reverse] sends the point itself as
    [latlng], the sensor flag as [true] or [false], the language only
    when it is given and not empty, and no other parameter; it makes its
    one request to the URL of these parameters, or raises what building
    the URL raises. *)
Theorem reverse_request (v language : pyval) (sensor exactly_one : bool)
    (self : GoogleV3) (w : world) :
  is_sequence v = false →
  ∃ params : gmap string pyval,
    reverse (ObjValue v) language sensor exactly_one self w
    = match request_url self params with
      | Ok url => geocode_url url exactly_one self w
      | Raise e => (Raise e, self, w)
      end
    ∧ params !! "latlng" = Some v
    ∧ params !! "sensor" = Some (sensor_flag sensor)
    ∧ params !! "language" = (if truthy language then Some language else None)
    ∧ ∀ k, k ∉ reverse_keys → params !! k = None.
Proof.
  intros Hv. unfold reverse. rewrite run_lift, (coerce_other_returns v Hv).
  cbv zeta. rewrite run_this, sensor_flag_lower.
  eexists. split; [apply run_lift|].
  destruct (truthy language).
  - repeat split; try reflexivity. intros k Hk. unfold reverse_keys in Hk.
    rewrite !not_elem_of_cons in Hk. destruct Hk as (? & ? & ? & _).
    by rewrite !lookup_insert_ne.
  - repeat split; try reflexivity. intros k Hk. unfold reverse_keys in Hk.
    rewrite !not_elem_of_cons in Hk. destruct Hk as (? & ? & ? & _).
    by rewrite !lookup_insert_ne.
Qed.

(** X11.  Once the base class accepts the query and the address is
    formatted, [geocode] sends the address, the sensor flag as [true]
    or [false], each of bounds, region and language only when it is
    given and not empty, and no other parameter; it makes its one
    request to the URL of these parameters, or raises what building the
    URL raises. *)
Theorem geocode_request (query bounds region language address : pyval)
    (sensor exactly_one : bool) (self : GoogleV3) (w : world) :
  Geocoder_geocode query = Ok tt →
  format_query query = Ok address →
  ∃ params : gmap string pyval,
    geocode query bounds region language sensor exactly_one self w
    = match request_url self params with
      | Ok url => geocode_url url exactly_one self w
      | Raise e => (Raise e, self, w)
      end
    ∧ params !! "address" = Some address
    ∧ params !! "sensor" = Some (sensor_flag sensor)
    ∧ params !! "bounds" = (if truthy bounds then Some bounds else None)
    ∧ params !! "region" = (if truthy region then Some region else None)
    ∧ params !! "language" = (if truthy language then Some language else None)
    ∧ ∀ k, k ∉ geocode_keys → params !! k = None.
Proof.
  intros Hbase Haddress. unfold geocode. rewrite run_lift, Hbase, run_lift, Haddress.
  cbv zeta. rewrite run_this, sensor_flag_lower.
  eexists. split; [apply run_lift|].
  destruct (truthy bounds), (truthy region), (truthy language);
    (repeat split; try reflexivity; intros k Hk; unfold geocode_keys in Hk;
     rewrite !not_elem_of_cons in Hk; destruct Hk as (? & ? & ? & ? & ? & _);
     by rewrite !lookup_insert_ne).
Qed.

(** X12.  A call makes at most one request: [parse_json] makes none,
    and after [geocode] or [reverse] the world is either as it was or
    as one fetch left it. *)
Theorem one_fetch_per_call (c : @call response) (self : GoogleV3) (w : world) :
  (∀ pg exactly_one, c = ParseJson pg exactly_one → world_after (perform c self w) = w)
  ∧ (world_after (perform c self w) = w
     ∨ ∃ url, world_after (perform c self w) = (urlopen url w).2).
Proof.
  split.
  - intros pg exactly_one ->. apply parse_json_world.
  - destruct c as [query bounds region language sensor exactly_one
                  |point language sensor exactly_one|pg exactly_one]; cbn [perform].
    + unfold geocode. rewrite run_lift.
      destruct (Geocoder_geocode query) as [u|e]; [|by left].
      rewrite run_lift. destruct (format_query query) as [address|e]; [|by left].
      cbv zeta. rewrite run_this, run_lift.
      match goal with |- context [request_url self ?p] =>
        destruct (request_url self p) as [url|e]; [|by left] end.
      right. exists url. apply geocode_url_world.
    + unfold reverse. rewrite run_lift.
      destruct (_coerce_point_to_string point) as [latlng|e]; [|by left].
      cbv zeta. rewrite run_this, run_lift.
      match goal with |- context [request_url self ?p] =>
        destruct (request_url self p) as [url|e]; [|by left] end.
      right. exists url. apply geocode_url_world.
    + left. apply parse_json_world.
Qed.

(** *** The signed URL *)

(** X13.  The signed URL builder stores [client] into the parameters
    in every case, and raises exactly when [urlencode] raises or, after
    it, the decoding of the secret key does; the error is theirs. *)
Theorem signed_url_raises_iff (self : GoogleV3) (params : gmap string pyval) (e : exn) :
  let params' := <["client" := of_opt (client_id self)]> params in
  (_get_signed_url self params).1 = params'
  ∧ ((_get_signed_url self params).2 = Raise e ↔
       urlencode params' = Raise e
       ∨ ((∃ encoded, urlencode params' = Ok encoded)
          ∧ urlsafe_b64decode (of_opt (secret_key self)) = Raise e)).
Proof.
  intros params'. split; [done|]. unfold _get_signed_url. fold params'. cbn [snd].
  destruct (urlencode params') as [encoded|e1]; run_result.
  - destruct (urlsafe_b64decode (of_opt (secret_key self))) as [secret|e2]; run_result.
    + rewrite format_url_part. run_result. rewrite format_signed_url.
      split; [done|]. by intros [? | [_ ?]].
    + split.
      * intros [= ->]. right. split; [by exists encoded|done].
      * by intros [? | [_ [= ->]]].
  - split; [intros [= ->]; by left|]. by intros [[= ->] | [[? ?] _]].
Qed.

(** X14.  A signed URL is the plain URL of the parameters with
    [client] added, with the configured protocol in place of [http] and
    [&signature=...] appended; the signature does not depend on the
    protocol or the domain. *)
Theorem signed_url_extends_plain (self self' : GoogleV3) (params : gmap string pyval)
    (url : string) :
  client_id self' = client_id self →
  secret_key self' = secret_key self →
  (_get_signed_url self params).2 = Ok url →
  ∃ path_query signature,
    _get_url self (<["client" := of_opt (client_id self)]> params)
    = Ok ("http://" +:+ domain self +:+ path_query)
    ∧ url = protocol self +:+ "://" +:+ domain self +:+ path_query
              +:+ "&signature=" +:+ signature
    ∧ (_get_signed_url self' params).2
      = Ok (protocol self' +:+ "://" +:+ domain self' +:+ path_query
              +:+ "&signature=" +:+ signature).
Proof.
  intros Hcid Hkey. unfold _get_signed_url, _get_url. rewrite Hcid, Hkey. cbn [snd].
  destruct (urlencode (<["client" := of_opt (client_id self)]> params)) as [encoded|e];
    run_result; [|done].
  destruct (urlsafe_b64decode (of_opt (secret_key self))) as [secret|e]; run_result; [|done].
  rewrite !format_url_part. run_result. rewrite !format_signed_url, format_plain_url.
  intros [= <-]. by eexists _, _.
Qed.

(** X15.  When the transport serves a body that decodes to an object
    with a non-empty results array, [geocode_url] returns the tuple of
    the first result (or, without [exactly_one], the tuples of all of
    them, in order), stores the document in [doc] and leaves the world
    as the fetch left it. *)
Theorem geocode_url_returns (url : string) (self : GoogleV3) (w w' : world)
    (r : response) (text : string) (m : gmap string pyval)
    (place : pyval) (places : list pyval) :
  urlopen url w = (Ok r, w') →
  decode_page r = Ok text →
  json_loads text = Ok (VDict m) →
  m !! "results" = Some (VList (place :: places)) →
  (∀ t, tuple_of place t →
        geocode_url url true self w = (Ok t, with_doc (VDict m) self, w'))
  ∧ (∀ ts, Forall2 tuple_of (place :: places) ts →
           geocode_url url false self w = (Ok (VList ts), with_doc (VDict m) self, w')).
Proof.
  intros Hopen Hdecode Hloads Hres.
  assert (Hrun : ∀ exactly_one,
             geocode_url url exactly_one self w
             = (parse_doc (VDict m) exactly_one, with_doc (VDict m) self, w')).
  { intros exactly_one. rewrite geocode_url_run, Hopen.
    by apply (parse_json_decoded (Raw r) exactly_one self w' text). }
  split.
  - intros t Ht. rewrite Hrun, (parse_doc_results _ _ _ _ Hres).
    by rewrite (proj2 (parse_place_ok place t) Ht).
  - intros ts Hts. rewrite Hrun, (parse_doc_results _ _ _ _ Hres).
    rewrite (mapM_result_ok parse_place (place :: places) ts); [done|].
    eapply Forall2_impl; [exact Hts|]. intros p t. apply parse_place_ok.
Qed.

(** X16.  Once the response is decoded to an object, what [parse_json]
    raises is a geocoder error exactly when [results] is missing or
    empty; a malformed [results] or result surfaces as the built-in
    [AttributeError], [KeyError] or [TypeError] of the failed lookup,
    which [except GeocoderResultError] does not catch. *)
Theorem parse_json_error_kinds (pg : page response) (exactly_one : bool)
    (self : GoogleV3) (w : world) (text : string) (m : gmap string pyval) (e : exn) :
  page_text pg = Ok text →
  json_loads text = Ok (VDict m) →
  outcome (parse_json pg exactly_one self w) = Raise e →
  let results := default (VList []) (m !! "results") in
  (truthy results = false → e = status_error (m !! "status"))
  ∧ (truthy results = true → builtin_lookup_error e)
  ∧ (issubclass e GeocoderResultError = true ↔ truthy results = false).
Proof.
  intros Htext Hloads. rewrite (parse_json_decoded _ _ _ _ _ _ Htext Hloads).
  unfold outcome. cbn [fst]. intros Hraise.
  set (results := default (VList []) (m !! "results")).
  assert (Hfalsy : truthy results = false → e = status_error (m !! "status")).
  { intros Hf. revert Hraise. unfold parse_doc, get. run_result. fold results.
    rewrite Hf. cbn [negb]. rewrite check_status_error. by intros [= <-]. }
  assert (Htruthy : truthy results = true → builtin_lookup_error e).
  { intros Ht. destruct (m !! "results") as [r|] eqn:Hres; [|done].
    by apply (parse_doc_truthy_error m r exactly_one e). }
  split; [done|]. split; [done|]. split.
  - intros Hsub. destruct (truthy results); [|done].
    destruct Htruthy as [-> | [-> | ->]]; done.
  - intros Hf. rewrite (Hfalsy Hf). apply status_error_is_geocoder_error.
Qed.

End Further.

(** ** The further properties at concrete requests *)

Lemma init_domain_stripped_witness :
  ¬ begins_with "/" (domain Stub.plain)
  ∧ ¬ ends_with "/" (domain Stub.plain)
  ∧ __init__ "maps.googleapis.com" "https" None None = Ok Stub.plain.
Proof.
  destruct (init_domain_stripped "/maps.googleapis.com//" "https" None None Stub.plain
              eq_refl) as (Hb & He & _ & Hagain).
  by repeat split.
Defined.

Lemma credentials_invariant_witness :
  let calls :=
    [ Geocode (VStr "1600 Amphitheatre Parkway, Mountain View, CA")
        VNone VNone VNone false true;
      Reverse (ObjValue (VStr "40.714224,-73.961452")) VNone false false ] in
  let self' :=
    (perform_all (lib := Stub.stub) calls Stub.signing
       ["one_result.json"; "two_results.json"]).1 in
  premier self' = true ∧ client_id self' = Some "clientID"
  ∧ secret_key self' = Some "vNIXE0xscrmjlyV-12Nj_BvUPaw=".
Proof.
  intros calls self'.
  destruct (credentials_invariant (lib := Stub.stub) "maps.googleapis.com/" "https"
              (Some "clientID") (Some "vNIXE0xscrmjlyV-12Nj_BvUPaw=") Stub.signing
              calls ["one_result.json"; "two_results.json"] eq_refl)
    as (_ & Hpremier & _).
  destruct Hpremier as (Hp & Hc & Hk & _).
  - split; eexists; by split.
  - by repeat split.
Defined.

Lemma parse_json_no_results_witness :
  outcome (parse_json (lib := Edge.stub) (Text "request_denied.json") true Stub.plain [])
  = Raise GQueryError
  ∧ outcome (parse_json (lib := Edge.stub) (Text "null_results.json") false Stub.plain [])
    = Raise GQueryError.
Proof.
  split.
  - etransitivity.
    + apply (parse_json_no_results (lib := Edge.stub) (Text "request_denied.json") true
               Stub.plain [] "request_denied.json" Edge.denied eq_refl eq_refl).
      by left.
    + reflexivity.
  - etransitivity.
    + apply (parse_json_no_results (lib := Edge.stub) (Text "null_results.json") false
               Stub.plain [] "null_results.json" Edge.null_results eq_refl eq_refl).
      right. by exists VNone.
    + reflexivity.
Defined.

Lemma parse_json_returns_inv_witness :
  Stub.tuple "1600 Amphitheatre Parkway, Mountain View, CA, USA"
    (VFloat 37.4224764) (VFloat (-122.0842499)) ≠ VNone
  ∧ ∃ m place places,
      doc (instance_after
             (parse_json (lib := Stub.stub) (Text "one_result.json") true Stub.plain []))
      = VDict m
      ∧ (m !! "results" = Some (VList (place :: places))
         ∨ m !! "results" = Some (VTuple (place :: places)))
      ∧ tuple_of place
          (Stub.tuple "1600 Amphitheatre Parkway, Mountain View, CA, USA"
             (VFloat 37.4224764) (VFloat (-122.0842499))).
Proof.
  apply (parse_json_returns_inv (lib := Stub.stub) (Text "one_result.json") true
           Stub.plain []).
  vm_compute. reflexivity.
Defined.

Lemma exactly_one_ignores_rest_witness :
  outcome (parse_json (lib := Stub.stub) (Text "one_result.json") true Stub.plain [])
  = outcome (parse_json (lib := Stub.stub) (Text "half.json") true Stub.signing []).
Proof.
  by apply (exactly_one_ignores_rest (lib := Stub.stub)
              (Text "one_result.json") (Text "half.json") Stub.plain Stub.signing [] []
              "one_result.json" "half.json"
              (Stub.fields_of "OK" [Stub.amphitheatre])
              (Stub.fields_of "OK" [Stub.amphitheatre; Stub.half])
              Stub.amphitheatre [] [Stub.half]).
Defined.

Lemma parse_json_not_object_witness :
  parse_json (lib := Edge.stub) (Text "array.json") true Stub.plain []
  = (Raise AttributeError, with_doc (VList [Stub.amphitheatre]) Stub.plain, []).
Proof.
  by apply (parse_json_not_object (lib := Edge.stub) (Text "array.json") true Stub.plain []
              "array.json" (VList [Stub.amphitheatre])).
Defined.

Lemma reverse_sequence_never_fetches_witness :
  ∃ e, reverse (lib := Stub.stub)
         (ObjValue (VTuple [VFloat 40.714224; VFloat (-73.961452)])) VNone false false
         Stub.plain ["two_results.json"]
       = (Raise e, Stub.plain, ["two_results.json"])
       ∧ (e = TypeError ∨ e = IndexError).
Proof.
  apply (reverse_sequence_never_fetches (lib := Stub.stub)).
  right. by eexists.
Defined.

Lemma reverse_request_witness :
  ∃ params : gmap string pyval,
    reverse (lib := Stub.stub) (ObjValue (VStr "40.714224,-73.961452")) (VStr "")
      true false Stub.plain ["two_results.json"]
    = match request_url (lib := Stub.stub) Stub.plain params with
      | Ok url => geocode_url (lib := Stub.stub) url false Stub.plain ["two_results.json"]
      | Raise e => (Raise e, Stub.plain, ["two_results.json"])
      end
    ∧ params !! "latlng" = Some (VStr "40.714224,-73.961452")
    ∧ params !! "sensor" = Some (VStr "true")
    ∧ params !! "language" = None
    ∧ ∀ k, k ∉ reverse_keys → params !! k = None.
Proof.
  by apply (reverse_request (lib := Stub.stub) (VStr "40.714224,-73.961452") (VStr "")
              true false Stub.plain ["two_results.json"]).
Defined.

Lemma geocode_request_witness :
  ∃ params : gmap string pyval,
    geocode (lib := Stub.stub) (VStr "New York") VNone (VStr "us") (VStr "")
      false true Stub.plain ["one_result.json"]
    = match request_url (lib := Stub.stub) Stub.plain params with
      | Ok url => geocode_url (lib := Stub.stub) url true Stub.plain ["one_result.json"]
      | Raise e => (Raise e, Stub.plain, ["one_result.json"])
      end
    ∧ params !! "address" = Some (VStr "New York")
    ∧ params !! "sensor" = Some (VStr "false")
    ∧ params !! "bounds" = None
    ∧ params !! "region" = Some (VStr "us")
    ∧ params !! "language" = None
    ∧ ∀ k, k ∉ geocode_keys → params !! k = None.
Proof.
  by apply (geocode_request (lib := Stub.stub) (VStr "New York") VNone (VStr "us") (VStr "")
              (VStr "New York") false true Stub.plain ["one_result.json"]).
Defined.

Lemma signed_url_extends_plain_witness :
  ∃ path_query signature,
    _get_url (lib := Stub.stub) Stub.signing (<["client" := VStr "clientID"]> Stub.new_york)
    = Ok ("http://" +:+ "maps.googleapis.com" +:+ path_query)
    ∧ "https://maps.googleapis.com/maps/api/geocode/json?sensor=false&client=clientID&address=New+York&signature=2be9cMDQ5i3iMoN9XXFecqIkDOA="
      = "https" +:+ "://" +:+ "maps.googleapis.com" +:+ path_query
          +:+ "&signature=" +:+ signature
    ∧ (_get_signed_url (lib := Stub.stub) (with_protocol "http" Stub.signing)
         Stub.new_york).2
      = Ok ("http" +:+ "://" +:+ "maps.googleapis.com" +:+ path_query
              +:+ "&signature=" +:+ signature).
Proof.
  apply (signed_url_extends_plain (lib := Stub.stub) Stub.signing
           (with_protocol "http" Stub.signing) Stub.new_york); [done..|].
  vm_compute. reflexivity.
Defined.

Lemma geocode_url_returns_witness :
  geocode_url (lib := Stub.stub) "http://maps.googleapis.com/maps/api/geocode/json?q"
    false Stub.plain ["two_results.json"; "one_result.json"]
  = (Ok (VList [Stub.tuple "277 Bedford Avenue, Brooklyn, NY 11211, USA"
                  (VFloat 40.714232) (VFloat (-73.9612889));
                Stub.tuple "Williamsburg, Brooklyn, NY, USA"
                  (VFloat 40.7064461) (VFloat (-73.9536163))]),
     with_doc (Stub.response_of "OK" [Stub.bedford; Stub.williamsburg]) Stub.plain,
     ["one_result.json"]).
Proof.
  apply (geocode_url_returns (lib := Stub.stub)
           "http://maps.googleapis.com/maps/api/geocode/json?q" Stub.plain
           ["two_results.json"; "one_result.json"] ["one_result.json"]
           "two_results.json" "two_results.json"
           (Stub.fields_of "OK" [Stub.bedford; Stub.williamsburg])
           Stub.bedford [Stub.williamsburg] eq_refl eq_refl eq_refl eq_refl).
  repeat constructor; by eexists _, _.
Defined.

Lemma parse_json_error_kinds_witness :
  builtin_lookup_error KeyError
  ∧ issubclass KeyError GeocoderResultError = false.
Proof.
  destruct (parse_json_error_kinds (lib := Stub.stub) (Text "half.json") false Stub.plain []
              "half.json" (Stub.fields_of "OK" [Stub.amphitheatre; Stub.half]) KeyError
              eq_refl eq_refl) as (_ & Hbuiltin & _).
  - vm_compute. reflexivity.
  - split; [by apply Hbuiltin|done].
Defined.
